(** * snaptel plugin commands (cmd/snaptel/plugin.go)

    A shallow embedding of the plugin sub-commands of the snaptel command
    line client: [unloadPlugin], [swapPlugins], [Filter], [listCatalog],
    [latestReleaseData], [listReleaseLinks], [downloadxPlugin] and
    [download], together with the parts of the Go standard library they
    call ([strings.Contains], [strings.Split], [filepath.SplitList],
    [strconv.Atoi], the [%d] verb of [fmt]).

    Strings are [string], Go's [int] is [Z] (64 bit range where the range
    matters), slices are lists.  The remote plugin client, the network, the
    file system and the JSON codec are fields of an environment record; the
    commands run in a small state monad that records every remote call and
    everything written to standard output, and that can panic. *)

From Stdlib Require Import ZArith List String Ascii Bool Lia.
From Stdlib Require Import DecimalString DecimalPos DecimalZ.
Import ListNotations.

Set Warnings "-register-all".

Local Open Scope string_scope.
Local Open Scope Z_scope.

(* ================================================================== *)
(** ** Go standard library: package strings *)

Module strings.

(** [strings.Contains(s, substr)]: [substr] occurs in [s]. *)
Fixpoint Contains (s substr : string) : bool :=
  if String.prefix substr s then true
  else match s with
       | EmptyString => false
       | String _ s' => Contains s' substr
       end.

(** [strings.Split(s, sep)] for a separator of one byte, the only way
    the commands call it: the pieces of [s] between the occurrences of
    [sep]; always at least one piece. *)
Fixpoint Split (s : string) (sep : ascii) : list string :=
  match s with
  | EmptyString => [EmptyString]
  | String c s' =>
      if Ascii.eqb c sep then EmptyString :: Split s' sep
      else match Split s' sep with
           | [] => [String c EmptyString]
           | piece :: pieces => String c piece :: pieces
           end
  end.

(** The byte [c] occurs in [s]. *)
Fixpoint ContainsRune (s : string) (c : ascii) : bool :=
  match s with
  | EmptyString => false
  | String c' s' => Ascii.eqb c' c || ContainsRune s' c
  end.

End strings.

(* ================================================================== *)
(** ** Go standard library: package path/filepath (Unix) *)

Module filepath.

(** [os.PathListSeparator] on Unix. *)
Definition ListSeparator : ascii := ":"%char.

(** [filepath.SplitList(path)] on Unix: the empty list for the empty
    path, [strings.Split(path, ":")] otherwise. *)
Definition SplitList (path : string) : list string :=
  if String.eqb path "" then [] else strings.Split path ListSeparator.

End filepath.

(* ================================================================== *)
(** ** Go standard library: package strconv and the [%d] verb *)

Module strconv.

Inductive NumError := ErrSyntax | ErrRange.

(** The range of Go's [int] on a 64 bit platform. *)
Definition MaxInt : Z := 2 ^ 63 - 1.
Definition MinInt : Z := - 2 ^ 63.

(** [ch -= '0'; if ch > 9 { syntax error }] *)
Definition digit (c : ascii) : option Z :=
  let n := Z.of_nat (nat_of_ascii c) - 48 in
  if (0 <=? n) && (n <=? 9) then Some n else None.

(** The digit loop [n = n*10 + int(ch)]. *)
Fixpoint digits (s : string) (n : Z) : option Z :=
  match s with
  | EmptyString => Some n
  | String c s' =>
      match digit c with
      | Some d => digits s' (n * 10 + d)
      | None => None
      end
  end.

(** [strconv.Atoi(s)]: an optional sign and one or more decimal digits.
    A syntax error returns 0, a value out of the range of [int] returns
    the nearest bound, both with a non-nil error. *)
Definition Atoi (s : string) : Z * option NumError :=
  match s with
  | EmptyString => (0, Some ErrSyntax)
  | String c r =>
      let neg := Ascii.eqb c "-" in
      let body := if neg || Ascii.eqb c "+" then r else s in
      match body with
      | EmptyString => (0, Some ErrSyntax)
      | _ =>
          match digits body 0 with
          | None => (0, Some ErrSyntax)
          | Some n =>
              let v := if neg then - n else n in
              if v <? MinInt then (MinInt, Some ErrRange)
              else if MaxInt <? v then (MaxInt, Some ErrRange)
              else (v, None)
          end
      end
  end.

(** What [fmt] prints for an [int] under [%d] (and [strconv.Itoa]):
    decimal, no leading zeros, a minus sign for negative numbers. *)
Definition Itoa (z : Z) : string := NilZero.string_of_int (Z.to_int z).

End strconv.

(** What [fmt] prints for a [bool] under [%v]. *)
Definition FormatBool (b : bool) : string := if b then "true" else "false".

Definition newline : string := String (ascii_of_nat 10) EmptyString.

(* ================================================================== *)
(** ** Data model *)

(** A catalog entry, [type Plugin struct]. *)
Record Plugin := {
  Name : string;
  FullName : string;
  Type' : string;
  Owner : string;
  Description : string;
  URL : string;
  Forks : Z;
  Stars : Z;
  Watchers : Z;
  Issues : Z
}.

(** A value decoded from JSON into an [interface{}]: [nil], [bool],
    [float64] (mantissa and binary exponent), [string], [[]interface{}]
    or [map[string]interface{}]. *)
Inductive interface :=
| Nil
| Bool (b : bool)
| Float64 (mantissa exponent : Z)
| Str (s : string)
| Slice (elems : list interface)
| Map (fields : list (string * interface)).

(** [m[key]] on a [map[string]interface{}]: the zero value [nil] for a
    missing key (and for the nil map, the empty list). *)
Fixpoint mapIndex (m : list (string * interface)) (key : string) : interface :=
  match m with
  | [] => Nil
  | (k, v) :: m' => if String.eqb k key then v else mapIndex m' key
  end.

(** Go's [error] values, by their text; a usage error is kept apart. *)
Inductive error :=
| UsageError (msg : string)
| Error (msg : string).

(** The results of the remote plugin client (package client of snap's
    management API), with the fields the commands read. *)
Module client.

(** [rbody.PluginUnloaded] *)
Record PluginUnloaded := {
  UnloadedName : string;
  UnloadedVersion : Z;
  UnloadedType : string
}.

Record UnloadPluginResult := {
  Unloaded : PluginUnloaded;
  UnloadErr : option string
}.

Record LoadedPlugin := {
  LoadedName : string;
  LoadedVersion : Z;
  LoadedType : string;
  Signed : bool;
  LoadedTimestamp : Z
}.

Record SwapPluginsResult := {
  LoadedPlugin' : LoadedPlugin;
  UnloadedPlugin : PluginUnloaded;
  SwapErr : option string
}.

End client.

(** The command line of one invocation, [*cli.Context]: the positional
    arguments and the values of the flags by name ([""] and [0] for a flag
    that is not given). *)
Record Context := {
  Args : list string;
  String' : string -> string;
  Int : string -> Z
}.

(** [ctx.Args().Get(n)] and [ctx.Args().First()]: the empty string when
    there is no such argument. *)
Definition Get (args : list string) (n : nat) : string := nth n args "".
Definition First (args : list string) : string := Get args 0.

(** Modelled from the spec: [newUsageError] is declared outside plugin.go;
    a usage error carries its message and is reported with the usage text
    of the command, without any network call. *)
Definition newUsageError (msg : string) (ctx : Context) : error := UsageError msg.

(** Everything outside the process: the remote plugin client [pClient],
    the network, the file system, the JSON codec, the platform and the
    layout [timeFormat] of the loaded time. *)
Record Env := {
  UnloadPlugin : string -> string -> Z -> client.UnloadPluginResult;
  SwapPlugin : list string -> string -> string -> Z -> client.SwapPluginsResult;
  (** GET of a URL and reading the whole body: the body or the error *)
  http_Get : string -> string + string;
  (** [json.Unmarshal] into a [[]Plugin] *)
  Unmarshal_Plugins : string -> list Plugin + string;
  (** [json.Unmarshal] into a [map[string]interface{}]; [None] leaves the
      map nil *)
  Unmarshal_object : string -> option (list (string * interface));
  (** [json.MarshalIndent(v, "", "    ")] *)
  MarshalIndent : list Plugin -> string;
  (** [os.Create]: the error, if any *)
  os_Create : string -> option string;
  (** [io.Copy] of a body into the file: bytes written and error *)
  io_Copy : string -> string -> Z * option string;
  GOOS : string;
  GOARCH : string;
  (** [p.LoadedTime().Format(timeFormat)] *)
  FormatLoadedTime : Z -> string
}.

(* ================================================================== *)
(** ** The command monad *)

(** What a command does to the outside world, in order. *)
Inductive Call :=
| CallUnloadPlugin (pType pName : string) (pVer : Z)
| CallSwapPlugin (paths : list string) (pType pName : string) (pVer : Z)
| CallHttpGet (url : string)
| CallCreate (fileName : string)
| CallCopy (fileName : string).

(** What a command writes to standard output: text, a format string given
    to [fmt.Printf] without operands, or a line holding the default format
    of an [interface{}] value ([fmt.Println(v)]). *)
Inductive Output :=
| Text (s : string)
| Formatted (format : string)
| Value (v : interface).

Record State := {
  calls : list Call;
  stdout : list Output
}.

Definition initial : State := {| calls := []; stdout := [] |}.

Inductive Outcome (A : Type) :=
| Done (a : A)
| Panic (msg : string).
Arguments Done {A} a.
Arguments Panic {A} msg.

Definition Cmd (A : Type) : Type := State -> Outcome A * State.

Definition ret {A} (a : A) : Cmd A := fun st => (Done a, st).

Definition bind {A B} (c : Cmd A) (k : A -> Cmd B) : Cmd B :=
  fun st =>
    match c st with
    | (Done a, st') => k a st'
    | (Panic msg, st') => (Panic msg, st')
    end.

Notation "x <- c ;; k" := (bind c (fun x => k))
  (at level 61, c at next level, right associativity).
Notation "c ;;; k" := (bind c (fun _ => k))
  (at level 61, right associativity).

Definition panic {A} (msg : string) : Cmd A := fun st => (Panic msg, st).

Definition call (c : Call) : Cmd unit :=
  fun st => (Done tt, {| calls := calls st ++ [c]; stdout := stdout st |}).

Definition write (o : Output) : Cmd unit :=
  fun st => (Done tt, {| calls := calls st; stdout := stdout st ++ [o] |}).

(** [fmt.Println(s)] and [fmt.Printf] with its verbs already expanded. *)
Definition Println (s : string) : Cmd unit := write (Text (s ++ newline)).
Definition Printf (s : string) : Cmd unit := write (Text s).

(** The text on standard output, when all of it is text. *)
Fixpoint text (out : list Output) : option string :=
  match out with
  | [] => Some ""
  | Text s :: out' => option_map (String.append s) (text out')
  | _ :: _ => None
  end.

(* ================================================================== *)
(** ** The commands *)

Section Commands.

Variable env : Env.

Definition unloadPlugin (ctx : Context) : Cmd (option error) :=
  let pType := Get (Args ctx) 0 in
  let pName := Get (Args ctx) 1 in
  let '(pVer, err) := strconv.Atoi (Get (Args ctx) 2) in
  if String.eqb pType "" then
    ret (Some (newUsageError "Must provide plugin type" ctx))
  else if String.eqb pName "" then
    ret (Some (newUsageError "Must provide plugin name" ctx))
  else if match err with Some _ => true | None => false end then
    ret (Some (newUsageError "Can't convert version string to integer" ctx))
  else if pVer <? 1 then
    ret (Some (newUsageError "Must provide plugin version" ctx))
  else
    call (CallUnloadPlugin pType pName pVer) ;;;
    let r := UnloadPlugin env pType pName pVer in
    match client.UnloadErr r with
    | Some e =>
        ret (Some (Error ("Error unloading plugin:" ++ newline ++ e ++ newline)))
    | None =>
        Println "Plugin unloaded" ;;;
        Printf ("Name: " ++ client.UnloadedName (client.Unloaded r) ++ newline) ;;;
        Printf ("Version: "
                ++ strconv.Itoa (client.UnloadedVersion (client.Unloaded r))
                ++ newline) ;;;
        Printf ("Type: " ++ client.UnloadedType (client.Unloaded r) ++ newline) ;;;
        ret None
    end.

(** The end of [swapPlugins], where the two ways of naming the plugin
    to unload join: the checks on [pType], [pName] and [pVer], the remote
    call and the report. *)
Definition swapResolved (ctx : Context) (paths : list string)
           (pType pName : string) (pVer : Z) : Cmd (option error) :=
  if String.eqb pType "" then
    ret (Some (newUsageError "Must provide plugin type" ctx))
  else if String.eqb pName "" then
    ret (Some (newUsageError "Must provide plugin name" ctx))
  else if pVer <? 1 then
    ret (Some (newUsageError "Must provide plugin version" ctx))
  else
    call (CallSwapPlugin paths pType pName pVer) ;;;
    let r := SwapPlugin env paths pType pName pVer in
    match client.SwapErr r with
    | Some e =>
        ret (Some (Error ("Error swapping plugins:" ++ newline ++ e ++ newline)))
    | None =>
        let l := client.LoadedPlugin' r in
        let u := client.UnloadedPlugin r in
        Println "Plugin loaded" ;;;
        Printf ("Name: " ++ client.LoadedName l ++ newline) ;;;
        Printf ("Version: " ++ strconv.Itoa (client.LoadedVersion l) ++ newline) ;;;
        Printf ("Type: " ++ client.LoadedType l ++ newline) ;;;
        Printf ("Signed: " ++ FormatBool (client.Signed l) ++ newline) ;;;
        Printf ("Loaded Time: "
                ++ FormatLoadedTime env (client.LoadedTimestamp l)
                ++ newline ++ newline) ;;;
        Println (newline ++ "Plugin unloaded") ;;;
        Printf ("Name: " ++ client.UnloadedName u ++ newline) ;;;
        Printf ("Version: " ++ strconv.Itoa (client.UnloadedVersion u) ++ newline) ;;;
        Printf ("Type: " ++ client.UnloadedType u ++ newline) ;;;
        ret None
    end.

(** The paths [swapPlugins] hands to the remote call: the first
    argument, then the signature file when the flag is set. *)
Definition swapPaths (ctx : Context) : list string :=
  let pAsc := String' ctx "plugin-asc" in
  let paths := [First (Args ctx)] in
  if negb (String.eqb pAsc "") then (paths ++ [pAsc])%list else paths.

Definition swapPlugins (ctx : Context) : Cmd (option error) :=
  (* plugin to load *)
  let pAsc := String' ctx "plugin-asc" in
  if (List.length (Args ctx) <? 1)%nat || (2 <? List.length (Args ctx))%nat then
    ret (Some (newUsageError "Incorrect usage:" ctx))
  else if negb (String.eqb pAsc "") && negb (strings.Contains pAsc ".asc") then
    ret (Some (newUsageError "Must be a .asc file for the -a flag" ctx))
  else
    let paths := swapPaths ctx in
    (* plugin to unload *)
    match Args ctx with
    | [_; token] =>                       (* len(ctx.Args()) == 2 *)
        match filepath.SplitList token with
        | [d0; d1; d2] =>                 (* len(pDetails) == 3 *)
            let '(pVer, err) := strconv.Atoi d2 in
            match err with
            | Some _ =>
                ret (Some (newUsageError "Can't convert version string to integer" ctx))
            | None => swapResolved ctx paths d0 d1 pVer
            end
        | _ => ret (Some (newUsageError "Missing type, name, or version" ctx))
        end
    | _ =>
        swapResolved ctx paths (String' ctx "plugin-type") (String' ctx "plugin-name")
                     (Int ctx "plugin-version")
    end.

(** [Filter]: the loop appends every element that satisfies [f]. *)
Definition Filter (vs : list Plugin) (f : Plugin -> bool) : list Plugin :=
  fold_left (fun vsf v => if f v then (vsf ++ [v])%list else vsf) vs [].

(** [getPluginData]: one GET, the body or the error. *)
Definition getPluginData (url : string) : Cmd (string + string) :=
  call (CallHttpGet url) ;;; ret (http_Get env url).

(** The filter block of [listCatalog]. *)
Definition catalogFilter (pType pName : string) (pluginNames : list Plugin)
  : list Plugin :=
  if negb (String.eqb pType "") && negb (String.eqb pName "") then
    Filter pluginNames (fun v =>
      strings.Contains (Type' v) pType && strings.Contains (FullName v) pName)
  else
    let pluginNames :=
      if negb (String.eqb pType "") then
        Filter pluginNames (fun v => strings.Contains (Type' v) pType)
      else pluginNames in
    if negb (String.eqb pName "") then
      Filter pluginNames (fun v =>
        strings.Contains (FullName v) pName || strings.Contains (Name v) pName)
    else pluginNames.

Definition listCatalog (ctx : Context) : Cmd (option error) :=
  got <- getPluginData "http://staging.webapi.snap-telemetry.io/plugin" ;;
  match got with
  | inr err => ret (Some (Error err))
  | inl body =>
      match Unmarshal_Plugins env body with
      | inr err => ret (Some (Error err))
      | inl pluginNames =>
          let pType := String' ctx "plugin-type" in
          let pName := String' ctx "plugin-name" in
          let pluginNames := catalogFilter pType pName pluginNames in
          write (Formatted (MarshalIndent env pluginNames)) ;;;
          ret None
      end
  end.

(** The link [latestReleaseData] formats. *)
Definition releaseLink (url : string) : string :=
  "https://api.github.com/repos/intelsdi-x/" ++ url ++ "/releases/latest".

(** [json.Unmarshal(body, &data)] with its error dropped: the map stays
    nil when the body does not decode. *)
Definition releaseDocument (body : string) : list (string * interface) :=
  match Unmarshal_object env body with
  | Some m => m
  | None => []
  end.

Definition latestReleaseData (url : string)
  : Cmd (list (string * interface) + string) :=
  let link := releaseLink url in
  call (CallHttpGet link) ;;;
  match http_Get env link with
  | inr err => ret (inr err)
  | inl body => ret (inl (releaseDocument body))
  end.

(** The loop of [listReleaseLinks] over the assets. *)
Fixpoint printAssets (assets : list interface) : Cmd unit :=
  match assets with
  | [] => ret tt
  | v :: rest =>
      match v with
      | Map asset =>
          write (Value (mapIndex asset "browser_download_url")) ;;;
          printAssets rest
      | _ => panic "interface conversion: interface {} is not map[string]interface {}"
      end
  end.

Definition listReleaseLinks (ctx : Context) : Cmd (option error) :=
  if negb (List.length (Args ctx) =? 1)%nat then
    ret (Some (newUsageError "Incorrect usage:" ctx))
  else
    got <- latestReleaseData (Get (Args ctx) 0) ;;
    match got with
    | inr err => ret (Some (Error err))
    | inl data =>
        match mapIndex data "assets" with
        | Slice assets => printAssets assets ;;; ret None
        | _ => panic "interface conversion: interface {} is not []interface {}"
        end
    end.

Definition download (url name : string) : Cmd (option error) :=
  let tokens := strings.Split url "/" in
  fileName <- (if String.eqb name "" then
                 match rev tokens with
                 | t :: _ => ret t            (* tokens[len(tokens)-1] *)
                 | [] => panic "index out of range"
                 end
               else ret name) ;;
  Println ("Downloading " ++ url ++ " to " ++ fileName) ;;;
  call (CallCreate fileName) ;;;
  match os_Create env fileName with
  | Some err =>
      ret (Some (Error ("Error while creating " ++ fileName ++ ": " ++ err)))
  | None =>
      call (CallHttpGet url) ;;;
      match http_Get env url with
      | inr err =>
          ret (Some (Error ("Error while downloading " ++ url ++ ": " ++ err)))
      | inl body =>
          call (CallCopy fileName) ;;;
          let '(n, err) := io_Copy env fileName body in
          match err with
          | Some err =>
              ret (Some (Error ("Error while downloading " ++ url ++ ": " ++ err)))
          | None =>
              Println (strconv.Itoa n ++ " bytes downloaded.") ;;;
              ret None
          end
      end
  end.

Definition downloadPlugin (ctx : Context) : Cmd (option error) :=
  if negb (List.length (Args ctx) =? 1)%nat then
    ret (Some (newUsageError "Incorrect usage:" ctx))
  else
    download (Get (Args ctx) 0) "" ;;; ret None.

(** The link [downloadxPlugin] formats. *)
Definition downloadLink (pluginName tag os arch : string) : string :=
  "https://github.com/intelsdi-x/" ++ pluginName ++ "/releases/download/" ++ tag
    ++ "/snap-plugin-publisher-file_" ++ os ++ "_" ++ arch.

(** The [switch runtime.GOARCH] of [downloadxPlugin]; [None] is its
    default case. *)
Definition archName (goarch : string) : option string :=
  if String.eqb goarch "amd64" then Some "x86_64"
  else if String.eqb goarch "386" then Some "x86_32"
  else None.

Definition downloadxPlugin (ctx : Context) : Cmd (option error) :=
  if negb (List.length (Args ctx) =? 1)%nat then
    ret (Some (newUsageError "Incorrect usage:" ctx))
  else
    let pluginName := First (Args ctx) in
    got <- latestReleaseData pluginName ;;
    match got with
    | inr err => ret (Some (Error err))
    | inl data =>
        tag <- match mapIndex data "tag_name" with
               | Str tag_name =>
                   match strings.Split tag_name "." with
                   | tag :: _ => ret tag
                   | [] => panic "index out of range"
                   end
               | _ => panic "interface conversion: interface {} is not string"
               end ;;
        let os := GOOS env in
        match archName (GOARCH env) with
        | None => ret (Some (Error "This arch is not yet supported"))
        | Some arch =>
            download (downloadLink pluginName tag os arch) pluginName ;;;
            ret None
        end
    end.

End Commands.

(** Running a command from the initial state. *)
Definition run {A} (c : Cmd A) : Outcome A * State := c initial.

(* ================================================================== *)
(** ** The argument parser of unload and swap, as the specification
       names its parts *)

(** The error kinds of the parser are usage errors, told apart by their
    message. *)
Definition MissingType : error := UsageError "Must provide plugin type".
Definition MissingName : error := UsageError "Must provide plugin name".
Definition InvalidVersion : error :=
  UsageError "Can't convert version string to integer".
Definition MissingVersion : error := UsageError "Must provide plugin version".

(** The signature flag of swap is unset or names a [.asc] file. *)
Definition ascOK (ctx : Context) : bool :=
  String.eqb (String' ctx "plugin-asc") ""
  || strings.Contains (String' ctx "plugin-asc") ".asc".

(** The single token naming the plugin to unload. *)
Definition token (pType pName : string) (pVer : Z) : string :=
  pType ++ ":" ++ pName ++ ":" ++ strconv.Itoa pVer.

(** The two commands that parse a plugin spec. *)
Inductive ParserCommand := Unload | Swap.

Definition exec (env : Env) (c : ParserCommand) (ctx : Context)
  : Cmd (option error) :=
  match c with
  | Unload => unloadPlugin env ctx
  | Swap => swapPlugins env ctx
  end.

(** [Resolves c ctx pType pName text pVer]: on the command line [ctx] the
    parser of command [c] reads the type [pType], the name [pName] and the
    version [pVer]; [text] is the version string when the version is read
    from text ([pVer] is then what [Atoi] returns for it), and [None] when
    it is the integer flag.  For swap the load side is in order: one or two
    arguments, an acceptable signature flag, and a token of three parts
    when there is one. *)
Inductive Resolves
  : ParserCommand -> Context -> string -> string -> option string -> Z -> Prop :=
| resolves_unload ctx :
    Resolves Unload ctx (Get (Args ctx) 0) (Get (Args ctx) 1)
             (Some (Get (Args ctx) 2)) (fst (strconv.Atoi (Get (Args ctx) 2)))
| resolves_swap_token ctx path tok d0 d1 d2 :
    Args ctx = [path; tok] ->
    ascOK ctx = true ->
    filepath.SplitList tok = [d0; d1; d2] ->
    Resolves Swap ctx d0 d1 (Some d2) (fst (strconv.Atoi d2))
| resolves_swap_flags ctx path :
    Args ctx = [path] ->
    ascOK ctx = true ->
    Resolves Swap ctx (String' ctx "plugin-type") (String' ctx "plugin-name")
             None (Int ctx "plugin-version").

(** The version text, if any, does not parse. *)
Definition unparsable (text : option string) : Prop :=
  exists s, text = Some s /\ snd (strconv.Atoi s) <> None.

(** [Violation pType pName text pVer e]: the error [e] is the kind that
    goes with a defect the input has. *)
Inductive Violation (pType pName : string) (text : option string) (pVer : Z)
  : error -> Prop :=
| violation_type : pType = "" -> Violation pType pName text pVer MissingType
| violation_name : pName = "" -> Violation pType pName text pVer MissingName
| violation_text :
    unparsable text -> Violation pType pName text pVer InvalidVersion
| violation_version :
    ~ unparsable text -> pVer < 1 ->
    Violation pType pName text pVer MissingVersion.

(* ================================================================== *)
(** ** The report of swap, as the specification names its parts *)

(** The block for the loaded plugin: the heading and five fields. *)
Definition loadedBlock (env : Env) (l : client.LoadedPlugin) : string :=
  "Plugin loaded" ++ newline
  ++ "Name: " ++ client.LoadedName l ++ newline
  ++ "Version: " ++ strconv.Itoa (client.LoadedVersion l) ++ newline
  ++ "Type: " ++ client.LoadedType l ++ newline
  ++ "Signed: " ++ FormatBool (client.Signed l) ++ newline
  ++ "Loaded Time: " ++ FormatLoadedTime env (client.LoadedTimestamp l) ++ newline.

(** The block for the unloaded plugin: the heading and three fields. *)
Definition unloadedBlock (u : client.PluginUnloaded) : string :=
  "Plugin unloaded" ++ newline
  ++ "Name: " ++ client.UnloadedName u ++ newline
  ++ "Version: " ++ strconv.Itoa (client.UnloadedVersion u) ++ newline
  ++ "Type: " ++ client.UnloadedType u ++ newline.

(** An empty line. *)
Definition blankLine : string := newline.

(* ================================================================== *)
(** ** Sample environments and command lines *)

(** A remote client that succeeds: it reports the unloaded plugin it was
    asked for and a loaded plugin [new-plugin] version 3.  The network
    answers [body] to every GET, the decoded release document is [doc],
    the platform is [linux] on [goarch]. *)
Definition sampleEnv (doc : option (list (string * interface))) (goarch : string)
  : Env := {|
  UnloadPlugin pType pName pVer :=
    {| client.Unloaded :=
         {| client.UnloadedName := pName;
            client.UnloadedVersion := pVer;
            client.UnloadedType := pType |};
       client.UnloadErr := None |};
  SwapPlugin paths pType pName pVer :=
    {| client.LoadedPlugin' :=
         {| client.LoadedName := "new-plugin";
            client.LoadedVersion := 3;
            client.LoadedType := pType;
            client.Signed := false;
            client.LoadedTimestamp := 0 |};
       client.UnloadedPlugin :=
         {| client.UnloadedName := pName;
            client.UnloadedVersion := pVer;
            client.UnloadedType := pType |};
       client.SwapErr := None |};
  http_Get _ := inl "body";
  Unmarshal_Plugins _ := inl [];
  Unmarshal_object _ := doc;
  MarshalIndent _ := "[]";
  os_Create _ := None;
  io_Copy _ _ := (4, None);
  GOOS := "linux";
  GOARCH := goarch;
  FormatLoadedTime _ := "Thu, 01 Jan 1970 00:00:00 UTC"
|}.

Definition echoEnv : Env := sampleEnv None "amd64".

(** No flag is given. *)
Definition noFlags (args : list string) : Context :=
  {| Args := args; String' := fun _ => ""; Int := fun _ => 0 |}.

(** The command line [swap ./new.plugin storage:old-plugin:1]. *)
Definition swapLine : Context :=
  noFlags ["./new.plugin"; "storage:old-plugin:1"].

(** The flags [--plugin-type], [--plugin-name] and [--plugin-version]. *)
Definition specFlags (args : list string) (pType pName : string) (pVer : Z)
  : Context :=
  {| Args := args;
     String' := fun name =>
       if String.eqb name "plugin-type" then pType
       else if String.eqb name "plugin-name" then pName
       else "";
     Int := fun name => if String.eqb name "plugin-version" then pVer else 0 |}.

(* ================================================================== *)
(** ** The catalog filter, as the specification names its rules *)

(** The type rule: the type holds the filter. *)
Definition typeMatches (typeFilter : string) (v : Plugin) : bool :=
  strings.Contains (Type' v) typeFilter.

(** The name rule: the full name or the name holds the filter. *)
Definition nameMatches (nameFilter : string) (v : Plugin) : bool :=
  strings.Contains (FullName v) nameFilter || strings.Contains (Name v) nameFilter.

(** A catalog entry whose name is not a part of its full name. *)
Definition cpuEntry : Plugin := {|
  Name := "CPU";
  FullName := "snap-plugin-collector-cpu";
  Type' := "collector";
  Owner := "intelsdi-x";
  Description := "";
  URL := "https://github.com/intelsdi-x/snap-plugin-collector-cpu";
  Forks := 0; Stars := 0; Watchers := 0; Issues := 0
|}.

(* ================================================================== *)
(** ** The release document *)

(** An element of [assets] is an object. *)
Definition isObject (v : interface) : bool :=
  match v with Map _ => true | _ => false end.

(** The elements before the first one that is not an object. *)
Fixpoint leadingObjects (assets : list interface) : list interface :=
  match assets with
  | Map asset :: rest => Map asset :: leadingObjects rest
  | _ => []
  end.

(** The line [listReleaseLinks] prints for an object. *)
Definition assetLine (v : interface) : Output :=
  match v with
  | Map asset => Value (mapIndex asset "browser_download_url")
  | _ => Value Nil
  end.

(** The [assets] field is missing, is not a sequence, or holds an element
    that is not an object. *)
Definition malformedAssets (data : list (string * interface)) : bool :=
  match mapIndex data "assets" with
  | Slice assets => negb (forallb isObject assets)
  | _ => true
  end.

(** What is printed before the panic on such a document. *)
Definition printedAssets (data : list (string * interface)) : list Output :=
  match mapIndex data "assets" with
  | Slice assets => map assetLine (leadingObjects assets)
  | _ => []
  end.

(** The state after one more call, and after more output. *)
Definition called (st : State) (c : Call) : State :=
  {| calls := calls st ++ [c]; stdout := stdout st |}.

Definition printed (st : State) (out : list Output) : State :=
  {| calls := calls st; stdout := stdout st ++ out |}.

(** The major tag: [strings.Split(tag_name, ".")[0]]. *)
Definition majorTag (tag_name : string) : string :=
  hd "" (strings.Split tag_name ".").

(** The release document holds the tag [2.4.1-beta] and nothing else. *)
Definition releaseEnv (goarch : string) : Env :=
  sampleEnv (Some [("tag_name", Str "2.4.1-beta")]) goarch.

(** A release document whose second asset is not an object. *)
Definition brokenAssets : list (string * interface) :=
  [("assets", Slice [Map [("browser_download_url", Str "u1")]; Str "x"])].

(** The command line [<command> snap-plugin-publisher-file]. *)
Definition releaseCtx : Context := noFlags ["snap-plugin-publisher-file"].

(* ================================================================== *)
(** ** Counting and joining pieces *)

(** The number of occurrences of the byte [c] in [s]. *)
Fixpoint CountRune (s : string) (c : ascii) : nat :=
  match s with
  | EmptyString => 0%nat
  | String c' s' => ((if Ascii.eqb c' c then 1 else 0) + CountRune s' c)%nat
  end.

(** [strings.Join(pieces, sep)] for a separator of one byte. *)
Fixpoint Join (pieces : list string) (sep : ascii) : string :=
  match pieces with
  | [] => ""
  | [piece] => piece
  | piece :: rest => piece ++ String sep (Join rest sep)
  end.

(* ================================================================== *)
(** ** The load command *)

(** An error of the remote client: its text ([Error()]) and its fields
    ([Fields()]). *)
Record ClientError := {
  ErrorText : string;
  Fields : list (string * interface)
}.

(** The result of [pClient.LoadPlugin]: the plugins the file held, or the
    error. *)
Record LoadPluginResult := {
  LoadedPlugins : list client.LoadedPlugin;
  LoadErr : option ClientError
}.

(** What load needs besides [Env]: the remote call [pClient.LoadPlugin]
    and the text [fmt] prints for a field under [%v]. *)
Record LoadEnv := {
  LoadPlugin : list string -> LoadPluginResult;
  FormatValue : interface -> string
}.

(** The state of load: the paths of every request to [LoadPlugin], and
    the state of the other effects. *)
Record LoadState := {
  requests : list (list string);
  console : State
}.

(** The loop of [loadPlugin] over the loaded plugins. *)
Fixpoint printLoadedPlugins (env : Env) (plugins : list client.LoadedPlugin)
  : Cmd unit :=
  match plugins with
  | [] => ret tt
  | p :: rest =>
      Println "Plugin loaded" ;;;
      Printf ("Name: " ++ client.LoadedName p ++ newline) ;;;
      Printf ("Version: " ++ strconv.Itoa (client.LoadedVersion p) ++ newline) ;;;
      Printf ("Type: " ++ client.LoadedType p ++ newline) ;;;
      Printf ("Signed: " ++ FormatBool (client.Signed p) ++ newline) ;;;
      Printf ("Loaded Time: "
              ++ FormatLoadedTime env (client.LoadedTimestamp p)
              ++ newline ++ newline) ;;;
      printLoadedPlugins env rest
  end.

Definition loadPlugin (env : Env) (lenv : LoadEnv) (ctx : Context)
  : LoadState -> Outcome (option error) * LoadState :=
  fun st =>
    let pAsc := String' ctx "plugin-asc" in
    if negb (List.length (Args ctx) =? 1)%nat then
      (Done (Some (newUsageError "Incorrect usage:" ctx)), st)
    else if negb (String.eqb pAsc "") && negb (strings.Contains pAsc ".asc") then
      (Done (Some (newUsageError "Must be a .asc file for the -a flag" ctx)), st)
    else
      let paths := [First (Args ctx)] in
      let paths := if negb (String.eqb pAsc "") then (paths ++ [pAsc])%list else paths in
      let st := {| requests := requests st ++ [paths]; console := console st |} in
      let r := LoadPlugin lenv paths in
      match LoadErr r with
      | Some err =>
          match mapIndex (Fields err) "error" with
          | Nil =>
              (Done (Some (Error ("Error loading plugin:" ++ newline
                                  ++ ErrorText err ++ newline))), st)
          | field =>
              (Done (Some (Error ("Error loading plugin:" ++ newline
                                  ++ ErrorText err ++ newline
                                  ++ FormatValue lenv field ++ newline))), st)
          end
      | None =>
          match printLoadedPlugins env (LoadedPlugins r) (console st) with
          | (Done _, out) => (Done None, {| requests := requests st; console := out |})
          | (Panic msg, out) => (Panic msg, {| requests := requests st; console := out |})
          end
      end.

(** The file [download] writes: [name], or the last piece of the link
    when [name] is empty. *)
Definition targetFile (url name : string) : string :=
  if String.eqb name "" then hd "" (rev (strings.Split url "/")) else name.

(** A remote client for load that returns two plugins. *)
Definition twoPlugins : list client.LoadedPlugin :=
  [ {| client.LoadedName := "cpu"; client.LoadedVersion := 1;
       client.LoadedType := "collector"; client.Signed := true;
       client.LoadedTimestamp := 0 |};
    {| client.LoadedName := "file"; client.LoadedVersion := 2;
       client.LoadedType := "publisher"; client.Signed := false;
       client.LoadedTimestamp := 0 |} ].

Definition loadEnv (r : LoadPluginResult) : LoadEnv :=
  {| LoadPlugin := fun _ => r;
     FormatValue := fun v => match v with Str s => s | _ => "<value>" end |}.

Definition loadInitial : LoadState := {| requests := []; console := initial |}.

(** The remote client loads [twoPlugins]. *)
Definition loadsTwo : LoadEnv :=
  loadEnv {| LoadedPlugins := twoPlugins; LoadErr := None |}.

(** The remote client refuses the file; the error has a field [error]. *)
Definition badSignature : ClientError :=
  {| ErrorText := "plugin load failed";
     Fields := [("error", Str "bad signature")] |}.

Definition refusesLoad : LoadEnv :=
  loadEnv {| LoadedPlugins := []; LoadErr := Some badSignature |}.

(** A remote client that refuses every unload and swap with the error
    [e]. *)
Definition failingEnv (e : string) : Env := {|
  UnloadPlugin pType pName pVer :=
    {| client.Unloaded := client.Unloaded (UnloadPlugin echoEnv pType pName pVer);
       client.UnloadErr := Some e |};
  SwapPlugin paths pType pName pVer :=
    {| client.LoadedPlugin' :=
         client.LoadedPlugin' (SwapPlugin echoEnv paths pType pName pVer);
       client.UnloadedPlugin :=
         client.UnloadedPlugin (SwapPlugin echoEnv paths pType pName pVer);
       client.SwapErr := Some e |};
  http_Get _ := inr e;
  Unmarshal_Plugins _ := inr e;
  Unmarshal_object _ := None;
  MarshalIndent _ := "[]";
  os_Create _ := Some e;
  io_Copy _ _ := (0, Some e);
  GOOS := "linux";
  GOARCH := "amd64";
  FormatLoadedTime := FormatLoadedTime echoEnv
|}.

(** The flag [--plugin-asc] besides the three flags of the spec. *)
Definition signedFlags (args : list string) (pAsc pType pName : string) (pVer : Z)
  : Context :=
  {| Args := args;
     String' := fun name =>
       if String.eqb name "plugin-asc" then pAsc
       else String' (specFlags args pType pName pVer) name;
     Int := Int (specFlags args pType pName pVer) |}.

(** A catalog of three entries; the full name of each holds its name. *)
Definition smallCatalog : list Plugin :=
  [ {| Name := "cpu"; FullName := "snap-plugin-collector-cpu"; Type' := "collector";
       Owner := "intelsdi-x"; Description := ""; URL := "";
       Forks := 0; Stars := 0; Watchers := 0; Issues := 0 |};
    {| Name := "file"; FullName := "snap-plugin-publisher-file"; Type' := "publisher";
       Owner := "intelsdi-x"; Description := ""; URL := "";
       Forks := 0; Stars := 0; Watchers := 0; Issues := 0 |};
    {| Name := "psutil"; FullName := "snap-plugin-collector-psutil";
       Type' := "collector";
       Owner := "intelsdi-x"; Description := ""; URL := "";
       Forks := 0; Stars := 0; Watchers := 0; Issues := 0 |} ].

(** The address of the catalog. *)
Definition catalogURL : string := "http://staging.webapi.snap-telemetry.io/plugin".

(** A release document with two assets. *)
Definition twoAssets : list (string * interface) :=
  [("tag_name", Str "2.4.1-beta");
   ("assets", Slice [Map [("browser_download_url", Str "u1")];
                     Map [("name", Str "checksums")]])].

(** The network answers every GET, the file system refuses the file. *)
Definition readOnlyEnv : Env := {|
  UnloadPlugin := UnloadPlugin echoEnv;
  SwapPlugin := SwapPlugin echoEnv;
  http_Get := http_Get echoEnv;
  Unmarshal_Plugins := Unmarshal_Plugins echoEnv;
  Unmarshal_object _ := Some twoAssets;
  MarshalIndent := MarshalIndent echoEnv;
  os_Create _ := Some "permission denied";
  io_Copy := io_Copy echoEnv;
  GOOS := "linux";
  GOARCH := "amd64";
  FormatLoadedTime := FormatLoadedTime echoEnv
|}.

(** The file system accepts the file, the network fails for every link
    but the one of the release. *)
Definition offlineEnv : Env := {|
  UnloadPlugin := UnloadPlugin echoEnv;
  SwapPlugin := SwapPlugin echoEnv;
  http_Get url :=
    if String.eqb url (releaseLink "snap-plugin-publisher-file") then inl "body"
    else inr "no route to host";
  Unmarshal_Plugins := Unmarshal_Plugins echoEnv;
  Unmarshal_object _ := Some twoAssets;
  MarshalIndent := MarshalIndent echoEnv;
  os_Create _ := None;
  io_Copy := io_Copy echoEnv;
  GOOS := "linux";
  GOARCH := "amd64";
  FormatLoadedTime := FormatLoadedTime echoEnv
|}.

(** The report of load: for each plugin its block and an empty line. *)
Fixpoint loadReport (env : Env) (plugins : list client.LoadedPlugin) : string :=
  match plugins with
  | [] => ""
  | p :: rest => loadedBlock env p ++ blankLine ++ loadReport env rest
  end.

(** The state of load after a request with [paths]. *)
Definition requested (st : LoadState) (paths : list string) : LoadState :=
  {| requests := requests st ++ [paths]; console := console st |}.

(** The text of a remote load error: the text of the error, then the
    field [error] when there is one, each on a line. *)
Definition loadErrorText (lenv : LoadEnv) (err : ClientError) : string :=
  "Error loading plugin:" ++ newline ++ ErrorText err ++ newline
  ++ match mapIndex (Fields err) "error" with
     | Nil => ""
     | field => FormatValue lenv field ++ newline
     end.

(* ================================================================== *)
(** * Proofs *)

(* ================================================================== *)
(** ** Facts about the library functions *)

Section StringFacts.

Lemma Split_without_sep (sep : ascii) (s : string) :
  strings.ContainsRune s sep = false -> strings.Split s sep = [s].
Proof.
  induction s as [|c s IH]; simpl; intros H; [reflexivity|].
  apply orb_false_iff in H as [Hc Hs].
  rewrite Hc, (IH Hs). reflexivity.
Qed.

Lemma Split_at_sep (sep : ascii) (a b : string) :
  strings.ContainsRune a sep = false ->
  strings.Split (a ++ String sep b) sep = a :: strings.Split b sep.
Proof.
  induction a as [|c a IH]; simpl; intros H.
  - rewrite Ascii.eqb_refl. reflexivity.
  - apply orb_false_iff in H as [Hc Ha].
    rewrite Hc, (IH Ha). reflexivity.
Qed.

Lemma Split_nonempty (sep : ascii) (s : string) : strings.Split s sep <> [].
Proof.
  destruct s as [|c s]; simpl; [discriminate|].
  destruct (Ascii.eqb c sep); [discriminate|].
  destruct (strings.Split s sep); discriminate.
Qed.

Lemma append_nonempty (a b : string) :
  a <> "" -> String.eqb (a ++ b) "" = false.
Proof. destruct a; [congruence|reflexivity]. Qed.

(** A token [type:name:version] splits into its three parts when the
    parts hold no separator. *)
Lemma SplitList_token (t n v : string) :
  t <> "" ->
  strings.ContainsRune t filepath.ListSeparator = false ->
  strings.ContainsRune n filepath.ListSeparator = false ->
  strings.ContainsRune v filepath.ListSeparator = false ->
  filepath.SplitList (t ++ ":" ++ n ++ ":" ++ v) = [t; n; v].
Proof.
  intros Ht Hst Hsn Hsv. unfold filepath.SplitList.
  rewrite (append_nonempty _ _ Ht).
  change (t ++ ":" ++ n ++ ":" ++ v)
    with (t ++ String filepath.ListSeparator (n ++ String filepath.ListSeparator v)).
  rewrite (Split_at_sep _ _ _ Hst), (Split_at_sep _ _ _ Hsn), (Split_without_sep _ _ Hsv).
  reflexivity.
Qed.

Lemma append_assoc (a b c : string) : (a ++ b) ++ c = a ++ b ++ c.
Proof. induction a as [|x a IH]; simpl; [reflexivity|now rewrite IH]. Qed.

End StringFacts.

(** *** [Atoi] reads back what [%d] prints *)

Section AtoiItoa.

Import Decimal.

Ltac eval_digit :=
  match goal with
  | |- context [strconv.digit ?c] =>
      let v := eval vm_compute in (strconv.digit c) in
      change (strconv.digit c) with v; cbv iota beta
  end.

(** The digit loop on the text of a decimal number, started from a
    positive accumulator. *)
Lemma digits_uint_acc (d : uint) (p : positive) :
  strconv.digits (NilEmpty.string_of_uint d) (Z.pos p)
  = Some (Z.pos (Pos.of_uint_acc d p)).
Proof.
  revert p. induction d; intros p;
    cbn [NilEmpty.string_of_uint Pos.of_uint_acc strconv.digits];
    [reflexivity | eval_digit; rewrite <- IHd; f_equal; lia ..].
Qed.

(** The same from 0: leading zeros are skipped. *)
Lemma digits_uint (d : uint) :
  strconv.digits (NilEmpty.string_of_uint d) 0 = Some (Z.of_N (Pos.of_uint d)).
Proof.
  induction d;
    cbn [NilEmpty.string_of_uint Pos.of_uint strconv.digits Z.of_N];
    [reflexivity | eval_digit; try exact IHd; rewrite <- digits_uint_acc; reflexivity ..].
Qed.

Lemma digits_to_uint (p : positive) :
  strconv.digits (NilEmpty.string_of_uint (Pos.to_uint p)) 0 = Some (Z.pos p).
Proof. rewrite digits_uint, DecimalPos.Unsigned.of_to. reflexivity. Qed.

(** A text the digit loop accepts holds digits only. *)
Lemma digits_no_rune (c : ascii) (s : string) (n m : Z) :
  strconv.digit c = None ->
  strconv.digits s n = Some m ->
  strings.ContainsRune s c = false.
Proof.
  intros Hc. revert n. induction s as [|a s IH]; simpl; intros n H; [reflexivity|].
  destruct (strconv.digit a) as [d|] eqn:Ha; [|discriminate].
  rewrite (IH _ H), orb_false_r.
  apply Ascii.eqb_neq. intros ->. congruence.
Qed.

Lemma NilZero_to_uint (p : positive) :
  NilZero.string_of_uint (Pos.to_uint p) = NilEmpty.string_of_uint (Pos.to_uint p).
Proof.
  pose proof (DecimalPos.Unsigned.to_uint_nonnil p) as H.
  destruct (Pos.to_uint p); [congruence|reflexivity..].
Qed.

Lemma Itoa_pos (p : positive) :
  strconv.Itoa (Z.pos p) = NilEmpty.string_of_uint (Pos.to_uint p).
Proof. unfold strconv.Itoa. simpl. apply NilZero_to_uint. Qed.

(** The text of a positive number starts with a digit. *)
Lemma Itoa_pos_head (p : positive) :
  exists c r, strconv.Itoa (Z.pos p) = String c r /\ strconv.digit c <> None.
Proof.
  rewrite Itoa_pos.
  pose proof (digits_to_uint p) as H.
  pose proof (DecimalPos.Unsigned.to_uint_nonnil p) as Hn.
  destruct (NilEmpty.string_of_uint (Pos.to_uint p)) as [|c r] eqn:E.
  - destruct (Pos.to_uint p); simpl in E; congruence.
  - exists c, r. split; [reflexivity|].
    simpl in H. destruct (strconv.digit c); congruence.
Qed.

Lemma Atoi_Itoa_pos (p : positive) :
  Z.pos p <= strconv.MaxInt ->
  strconv.Atoi (strconv.Itoa (Z.pos p)) = (Z.pos p, None).
Proof.
  intros Hmax.
  destruct (Itoa_pos_head p) as (c & r & E & Hc).
  pose proof (digits_to_uint p) as H. rewrite <- Itoa_pos, E in H.
  rewrite E. unfold strconv.Atoi.
  assert (Hm : Ascii.eqb c "-" = false)
    by (apply Ascii.eqb_neq; intros ->; apply Hc; reflexivity).
  assert (Hp : Ascii.eqb c "+" = false)
    by (apply Ascii.eqb_neq; intros ->; apply Hc; reflexivity).
  rewrite Hm, Hp. cbn [orb]. rewrite H.
  unfold strconv.MinInt, strconv.MaxInt in *.
  destruct (Z.ltb_spec (Z.pos p) (- 2 ^ 63)); [lia|].
  destruct (Z.ltb_spec (2 ^ 63 - 1) (Z.pos p)); [lia|reflexivity].
Qed.

(** [Atoi] returns every positive [int] from its decimal text. *)
Lemma Atoi_Itoa (v : Z) :
  1 <= v <= strconv.MaxInt ->
  strconv.Atoi (strconv.Itoa v) = (v, None).
Proof.
  intros [Hlo Hhi]. destruct v as [|p|p]; try lia. now apply Atoi_Itoa_pos.
Qed.

Lemma Itoa_no_separator (v : Z) :
  1 <= v ->
  strings.ContainsRune (strconv.Itoa v) filepath.ListSeparator = false.
Proof.
  intros Hlo. destruct v as [|p|p]; try lia.
  rewrite Itoa_pos.
  apply (digits_no_rune _ _ 0 (Z.pos p)); [reflexivity|apply digits_to_uint].
Qed.

End AtoiItoa.

(* ================================================================== *)
(** ** Unload and swap: the argument parser *)

Section SwapFacts.

Variable env : Env.

Lemma eqb_nonempty (s : string) : s <> "" -> String.eqb s "" = false.
Proof. intros H. now apply String.eqb_neq. Qed.

Lemma asc_guard (ctx : Context) :
  ascOK ctx = true ->
  negb (String.eqb (String' ctx "plugin-asc") "")
  && negb (strings.Contains (String' ctx "plugin-asc") ".asc") = false.
Proof.
  unfold ascOK. intros H.
  destruct (String.eqb (String' ctx "plugin-asc") ""); [reflexivity|].
  simpl in H. rewrite H. reflexivity.
Qed.

(** The checks of [swapResolved] do not look at the command line. *)
Lemma swapResolved_ctx (ctx ctx' : Context) paths pType pName pVer :
  swapResolved env ctx paths pType pName pVer
  = swapResolved env ctx' paths pType pName pVer.
Proof. reflexivity. Qed.

(** A spec that passes the checks reaches the remote call, once. *)
Lemma swapResolved_valid (ctx : Context) paths pType pName pVer (st : State) :
  pType <> "" -> pName <> "" -> 1 <= pVer ->
  exists r st',
    swapResolved env ctx paths pType pName pVer st = (Done r, st')
    /\ calls st' = (calls st ++ [CallSwapPlugin paths pType pName pVer])%list
    /\ forall msg, r <> Some (UsageError msg).
Proof.
  intros Ht Hn Hv. unfold swapResolved.
  rewrite (eqb_nonempty _ Ht), (eqb_nonempty _ Hn).
  destruct (Z.ltb_spec pVer 1) as [|_]; [lia|].
  unfold bind, call, ret, Println, Printf, write; cbv zeta.
  destruct (client.SwapErr (SwapPlugin env paths pType pName pVer)) as [e|];
    eexists _, _; repeat split; discriminate.
Qed.

(** The token form of swap, once the load side is in order. *)
Lemma swapPlugins_token (ctx : Context) path tok d0 d1 d2 :
  Args ctx = [path; tok] ->
  ascOK ctx = true ->
  filepath.SplitList tok = [d0; d1; d2] ->
  swapPlugins env ctx =
  match strconv.Atoi d2 with
  | (_, Some _) => ret (Some InvalidVersion)
  | (pVer, None) => swapResolved env ctx (swapPaths ctx) d0 d1 pVer
  end.
Proof.
  intros Ha Hasc Hs. unfold swapPlugins.
  rewrite (asc_guard _ Hasc), Ha, Hs. cbn.
  destruct (strconv.Atoi d2) as [v [e|]]; reflexivity.
Qed.

(** The flag form of swap, once the load side is in order. *)
Lemma swapPlugins_flags (ctx : Context) path :
  Args ctx = [path] ->
  ascOK ctx = true ->
  swapPlugins env ctx =
  swapResolved env ctx (swapPaths ctx) (String' ctx "plugin-type")
               (String' ctx "plugin-name") (Int ctx "plugin-version").
Proof.
  intros Ha Hasc. unfold swapPlugins.
  rewrite (asc_guard _ Hasc), Ha. reflexivity.
Qed.

End SwapFacts.

Section ParserFacts.

Variable env : Env.

Lemma not_unparsable_none : ~ unparsable None.
Proof. intros (s & H & _). discriminate. Qed.

Lemma not_unparsable_ok (s : string) (v : Z) :
  strconv.Atoi s = (v, None) -> ~ unparsable (Some s).
Proof. intros E (s' & [= <-] & H). rewrite E in H. now apply H. Qed.

(** The checks of [swapResolved] on a spec with a defect. *)
Lemma swapResolved_invalid (ctx : Context) paths pType pName text pVer (st : State) :
  ~ unparsable text ->
  pType = "" \/ pName = "" \/ pVer < 1 ->
  exists e,
    swapResolved env ctx paths pType pName pVer st = (Done (Some e), st)
    /\ Violation pType pName text pVer e.
Proof.
  intros Hu H. unfold swapResolved.
  destruct (String.eqb_spec pType "") as [Ht|Ht].
  { exists MissingType. split; [reflexivity|now constructor]. }
  destruct (String.eqb_spec pName "") as [Hn|Hn].
  { exists MissingName. split; [reflexivity|now constructor]. }
  destruct (Z.ltb_spec pVer 1) as [Hv|Hv].
  { exists MissingVersion. split; [reflexivity|now constructor]. }
  destruct H as [H|[H|H]]; [congruence|congruence|lia].
Qed.

End ParserFacts.

(** The checks of unload, in the order the code makes them. *)
Lemma unload_checks_in_order (env : Env) (ctx : Context) (st : State) :
  let pType := Get (Args ctx) 0 in
  let pName := Get (Args ctx) 1 in
  let parsed := strconv.Atoi (Get (Args ctx) 2) in
  (pType = "" -> unloadPlugin env ctx st = (Done (Some MissingType), st))
  /\ (pType <> "" -> pName = "" ->
      unloadPlugin env ctx st = (Done (Some MissingName), st))
  /\ (pType <> "" -> pName <> "" -> snd parsed <> None ->
      unloadPlugin env ctx st = (Done (Some InvalidVersion), st))
  /\ (pType <> "" -> pName <> "" -> snd parsed = None -> fst parsed < 1 ->
      unloadPlugin env ctx st = (Done (Some MissingVersion), st)).
Proof.
  cbv zeta. unfold unloadPlugin.
  destruct (strconv.Atoi (Get (Args ctx) 2)) as [v err]. cbn [fst snd].
  destruct (String.eqb_spec (Get (Args ctx) 0) "") as [Ht|Ht];
    [repeat split; intros; congruence|].
  destruct (String.eqb_spec (Get (Args ctx) 1) "") as [Hn|Hn];
    [repeat split; intros; congruence|].
  destruct err as [err|]; [repeat split; intros; congruence|].
  destruct (Z.ltb_spec v 1) as [Hv|Hv]; repeat split; intros; try congruence; lia.
Qed.

(** The checks of swap on a token of three parts: the version text comes
    first. *)
Lemma swap_token_checks_in_order
  (env : Env) (ctx : Context) (path tok d0 d1 d2 : string) (st : State) :
  Args ctx = [path; tok] ->
  ascOK ctx = true ->
  filepath.SplitList tok = [d0; d1; d2] ->
  let parsed := strconv.Atoi d2 in
  (snd parsed <> None -> swapPlugins env ctx st = (Done (Some InvalidVersion), st))
  /\ (snd parsed = None -> d0 = "" ->
      swapPlugins env ctx st = (Done (Some MissingType), st))
  /\ (snd parsed = None -> d0 <> "" -> d1 = "" ->
      swapPlugins env ctx st = (Done (Some MissingName), st))
  /\ (snd parsed = None -> d0 <> "" -> d1 <> "" -> fst parsed < 1 ->
      swapPlugins env ctx st = (Done (Some MissingVersion), st)).
Proof.
  intros Ha Hasc Hs. cbv zeta.
  rewrite (swapPlugins_token env ctx path tok d0 d1 d2 Ha Hasc Hs).
  destruct (strconv.Atoi d2) as [v [err|]]; cbn [fst snd];
    [repeat split; intros; congruence|].
  unfold swapResolved.
  destruct (String.eqb_spec d0 "") as [Ht|Ht]; [repeat split; intros; congruence|].
  destruct (String.eqb_spec d1 "") as [Hn|Hn]; [repeat split; intros; congruence|].
  destruct (Z.ltb_spec v 1) as [Hv|Hv]; repeat split; intros; try congruence; lia.
Qed.

(** A usage error of unload or swap leaves the state as it was: no
    remote call, nothing printed. *)
Lemma usage_error_makes_no_call
  (env : Env) (c : ParserCommand) (ctx : Context) (msg : string) (st st' : State) :
  exec env c ctx st = (Done (Some (UsageError msg)), st') -> st' = st.
Proof.
  assert (Hres : forall paths pType pName pVer,
             swapResolved env ctx paths pType pName pVer st
             = (Done (Some (UsageError msg)), st') -> st' = st).
  { intros paths pType pName pVer. unfold swapResolved.
    destruct (String.eqb pType ""); [now intros [= _ <-]|].
    destruct (String.eqb pName ""); [now intros [= _ <-]|].
    destruct (pVer <? 1); [now intros [= _ <-]|].
    unfold bind, call, ret, Println, Printf, write; cbv zeta.
    destruct (client.SwapErr (SwapPlugin env paths pType pName pVer)); discriminate. }
  destruct c; cbn [exec].
  - unfold unloadPlugin.
    destruct (strconv.Atoi (Get (Args ctx) 2)) as [v err].
    destruct (String.eqb (Get (Args ctx) 0) ""); [now intros [= _ <-]|].
    destruct (String.eqb (Get (Args ctx) 1) ""); [now intros [= _ <-]|].
    destruct err; [now intros [= _ <-]|].
    destruct (v <? 1); [now intros [= _ <-]|].
    unfold bind, call, ret, Println, Printf, write; cbv zeta.
    destruct (client.UnloadErr (UnloadPlugin env _ _ v)); discriminate.
  - unfold swapPlugins.
    destruct ((List.length (Args ctx) <? 1)%nat || (2 <? List.length (Args ctx))%nat);
      [now intros [= _ <-]|].
    destruct (negb (String.eqb (String' ctx "plugin-asc") "")
              && negb (strings.Contains (String' ctx "plugin-asc") ".asc"));
      [now intros [= _ <-]|].
    destruct (Args ctx) as [|a [|tok [|? ?]]]; try (apply Hres).
    destruct (filepath.SplitList tok) as [|d0 [|d1 [|d2 [|? ?]]]];
      try (now intros [= _ <-]).
    destruct (strconv.Atoi d2) as [v [err|]]; [now intros [= _ <-]|apply Hres].
Qed.

(** C1 (amended).  For every non-empty plugin type and plugin name that
    hold no path-list separator and every version from 1 up to the
    largest [int], swap accepts the token [type:name:version] as its
    second argument and the three flags alike: both command lines give
    the same outcome, and the remote swap call is made once, with that
    type, name and version. *)
Theorem swap_token_and_flags_agree
  (env : Env) (tokenCtx flagCtx : Context) (path pType pName : string)
  (pVer : Z) (st : State) :
  pType <> "" -> pName <> "" ->
  strings.ContainsRune pType filepath.ListSeparator = false ->
  strings.ContainsRune pName filepath.ListSeparator = false ->
  1 <= pVer <= strconv.MaxInt ->
  Args tokenCtx = [path; token pType pName pVer] ->
  Args flagCtx = [path] ->
  String' flagCtx "plugin-type" = pType ->
  String' flagCtx "plugin-name" = pName ->
  Int flagCtx "plugin-version" = pVer ->
  String' flagCtx "plugin-asc" = String' tokenCtx "plugin-asc" ->
  ascOK tokenCtx = true ->
  swapPlugins env tokenCtx st = swapPlugins env flagCtx st
  /\ exists r st',
       swapPlugins env flagCtx st = (Done r, st')
       /\ calls st'
          = (calls st ++ [CallSwapPlugin (swapPaths flagCtx) pType pName pVer])%list
       /\ forall msg, r <> Some (UsageError msg).
Proof.
  intros Ht Hn Hst Hsn Hv Hta Hfa Hft Hfn Hfv Hasc Hok.
  assert (Hok' : ascOK flagCtx = true) by (unfold ascOK in *; now rewrite Hasc).
  assert (Hp : swapPaths tokenCtx = swapPaths flagCtx)
    by (unfold swapPaths; now rewrite Hasc, Hta, Hfa).
  rewrite (swapPlugins_token env tokenCtx path _ pType pName (strconv.Itoa pVer) Hta Hok)
    by (apply SplitList_token; auto; apply Itoa_no_separator; lia).
  rewrite (swapPlugins_flags env flagCtx path Hfa Hok'), Hft, Hfn, Hfv.
  rewrite (Atoi_Itoa _ Hv), Hp.
  split; [reflexivity|].
  apply swapResolved_valid; auto; lia.
Qed.

Lemma swap_token_and_flags_agree_witness :
  swapPlugins echoEnv swapLine initial
  = swapPlugins echoEnv (specFlags ["./new.plugin"] "storage" "old-plugin" 1) initial
  /\ exists r st',
       swapPlugins echoEnv (specFlags ["./new.plugin"] "storage" "old-plugin" 1) initial
       = (Done r, st')
       /\ calls st' = [CallSwapPlugin ["./new.plugin"] "storage" "old-plugin" 1]
       /\ forall msg, r <> Some (UsageError msg).
Proof.
  apply (swap_token_and_flags_agree echoEnv
           swapLine
           (specFlags ["./new.plugin"] "storage" "old-plugin" 1)
           "./new.plugin" "storage" "old-plugin" 1 initial);
    try reflexivity; try discriminate.
  vm_compute. split; discriminate.
Defined.

(** The claim of C1 as it is written fails for a type that holds the
    separator: the flags name the plugin [a:b], the token [a:b:n:1] has
    four parts and is refused. *)
Lemma swap_token_with_separator_in_type :
  "a:b" <> "" /\ "n" <> "" /\ 1 <= 1 <= strconv.MaxInt
  /\ run (swapPlugins echoEnv (noFlags ["./new.plugin"; token "a:b" "n" 1]))
     = (Done (Some (UsageError "Missing type, name, or version")), initial)
  /\ calls (snd (run (swapPlugins echoEnv (specFlags ["./new.plugin"] "a:b" "n" 1))))
     = [CallSwapPlugin ["./new.plugin"] "a:b" "n" 1]
  /\ run (swapPlugins echoEnv (noFlags ["./new.plugin"; token "a:b" "n" 1]))
     <> run (swapPlugins echoEnv (specFlags ["./new.plugin"] "a:b" "n" 1)).
Proof.
  repeat split; try discriminate.
Qed.

(** C2.  When the type is empty, or the name is empty, or the version
    string does not parse, or the version is below 1, unload and swap
    return the usage error of one of the defects the input has
    ([MissingType], [MissingName], [InvalidVersion], [MissingVersion]) and
    leave the state as it was: no call to [UnloadPlugin] or [SwapPlugin]
    is made and nothing is printed. *)
Theorem parser_rejects_without_remote_call
  (env : Env) (c : ParserCommand) (ctx : Context)
  (pType pName : string) (text : option string) (pVer : Z) (st : State) :
  Resolves c ctx pType pName text pVer ->
  pType = "" \/ pName = "" \/ unparsable text \/ pVer < 1 ->
  exists e,
    exec env c ctx st = (Done (Some e), st)
    /\ Violation pType pName text pVer e.
Proof.
  intros R H. destruct R as [ctx | ctx path tok d0 d1 d2 Ha Hasc Hs | ctx path Ha Hasc].
  - (* unload *)
    cbn [exec]. unfold unloadPlugin.
    destruct (strconv.Atoi (Get (Args ctx) 2)) as [v err] eqn:E. cbn [fst] in *.
    destruct (String.eqb_spec (Get (Args ctx) 0) "") as [Ht|Ht].
    { exists MissingType. split; [reflexivity|now constructor]. }
    destruct (String.eqb_spec (Get (Args ctx) 1) "") as [Hn|Hn].
    { exists MissingName. split; [reflexivity|now constructor]. }
    destruct err as [err|].
    { exists InvalidVersion. split; [reflexivity|].
      constructor. exists (Get (Args ctx) 2). rewrite E.
      split; [reflexivity|discriminate]. }
    pose proof (not_unparsable_ok _ _ E) as Hu.
    destruct (Z.ltb_spec v 1) as [Hv|Hv].
    { exists MissingVersion. split; [reflexivity|now constructor]. }
    destruct H as [H|[H|[H|H]]]; [congruence|congruence|contradiction|lia].
  - (* swap, one token *)
    cbn [exec]. rewrite (swapPlugins_token env ctx path tok d0 d1 d2 Ha Hasc Hs).
    destruct (strconv.Atoi d2) as [v [err|]] eqn:E; cbn [fst] in *.
    { exists InvalidVersion. split; [reflexivity|].
      constructor. exists d2. rewrite E. split; [reflexivity|discriminate]. }
    pose proof (not_unparsable_ok _ _ E) as Hu.
    apply swapResolved_invalid; [assumption|].
    destruct H as [H|[H|[H|H]]]; auto. contradiction.
  - (* swap, flags *)
    cbn [exec]. rewrite (swapPlugins_flags env ctx path Ha Hasc).
    apply swapResolved_invalid; [apply not_unparsable_none|].
    destruct H as [H|[H|[H|H]]]; auto. now apply not_unparsable_none in H.
Qed.

Lemma parser_rejects_without_remote_call_witness :
  exists e,
    exec echoEnv Swap (noFlags ["./new.plugin"; "storage:old-plugin:x"]) initial
    = (Done (Some e), initial)
    /\ Violation "storage" "old-plugin" (Some "x") 0 e.
Proof.
  apply (parser_rejects_without_remote_call echoEnv Swap
           (noFlags ["./new.plugin"; "storage:old-plugin:x"])
           "storage" "old-plugin" (Some "x") 0 initial).
  - apply (resolves_swap_token _ "./new.plugin" "storage:old-plugin:x"
             "storage" "old-plugin" "x"); reflexivity.
  - right. right. left. exists "x". split; [reflexivity|discriminate].
Defined.

(** C10.  With exactly two positional arguments the flags
    [--plugin-type], [--plugin-name] and [--plugin-version] have no effect:
    two command lines that differ in those flags only give the same
    outcome, the same remote call and the same output. *)
Theorem swap_token_ignores_spec_flags
  (env : Env) (ctx1 ctx2 : Context) (st : State) :
  List.length (Args ctx1) = 2%nat ->
  Args ctx2 = Args ctx1 ->
  (forall name, name <> "plugin-type" -> name <> "plugin-name" ->
                String' ctx2 name = String' ctx1 name) ->
  (forall name, name <> "plugin-version" -> Int ctx2 name = Int ctx1 name) ->
  swapPlugins env ctx1 st = swapPlugins env ctx2 st.
Proof.
  intros Hlen Hargs Hs _.
  assert (Hasc : String' ctx2 "plugin-asc" = String' ctx1 "plugin-asc")
    by (apply Hs; discriminate).
  unfold swapPlugins, swapPaths. rewrite Hargs, Hasc.
  destruct (Args ctx1) as [|a [|b [|? ?]]]; try discriminate Hlen.
  reflexivity.
Qed.

Lemma swap_token_ignores_spec_flags_witness :
  swapPlugins echoEnv swapLine initial
  = swapPlugins echoEnv
      (specFlags ["./new.plugin"; "storage:old-plugin:1"] "publisher" "other" 7) initial.
Proof.
  apply swap_token_ignores_spec_flags.
  - reflexivity.
  - reflexivity.
  - intros name H1 H2. cbn.
    apply String.eqb_neq in H1, H2. now rewrite H1, H2.
  - intros name H. cbn. apply String.eqb_neq in H. now rewrite H.
Defined.

(* ================================================================== *)
(** ** Unload and swap: the report *)

(** C8.  [unload storage mock-collector 2], with a remote client that
    reports success for that plugin, calls [UnloadPlugin] once and prints
    the heading [Plugin unloaded] and the three lines [Name:
    mock-collector], [Version: 2], [Type: storage], in that order and
    nothing else. *)
Theorem unload_report (env : Env) (ctx : Context) :
  Args ctx = ["storage"; "mock-collector"; "2"] ->
  UnloadPlugin env "storage" "mock-collector" 2
  = {| client.Unloaded :=
         {| client.UnloadedName := "mock-collector";
            client.UnloadedVersion := 2;
            client.UnloadedType := "storage" |};
       client.UnloadErr := None |} ->
  run (unloadPlugin env ctx)
  = (Done None,
     {| calls := [CallUnloadPlugin "storage" "mock-collector" 2];
        stdout := [Text ("Plugin unloaded" ++ newline);
                   Text ("Name: mock-collector" ++ newline);
                   Text ("Version: 2" ++ newline);
                   Text ("Type: storage" ++ newline)] |}).
Proof.
  intros Ha Hr. unfold run, unloadPlugin. rewrite Ha.
  change (strconv.Atoi (Get ["storage"; "mock-collector"; "2"] 2))
    with (2, @None strconv.NumError).
  change (Get ["storage"; "mock-collector"; "2"] 0) with "storage".
  change (Get ["storage"; "mock-collector"; "2"] 1) with "mock-collector".
  cbv iota beta. change ("storage" =? "")%string with false.
  change ("mock-collector" =? "")%string with false.
  change (2 <? 1) with false. cbv iota.
  unfold bind, call. cbv zeta. rewrite Hr. reflexivity.
Qed.

Lemma unload_report_witness :
  run (unloadPlugin echoEnv (noFlags ["storage"; "mock-collector"; "2"]))
  = (Done None,
     {| calls := [CallUnloadPlugin "storage" "mock-collector" 2];
        stdout := [Text ("Plugin unloaded" ++ newline);
                   Text ("Name: mock-collector" ++ newline);
                   Text ("Version: 2" ++ newline);
                   Text ("Type: storage" ++ newline)] |}).
Proof. apply unload_report; reflexivity. Defined.

Section SwapReport.

Variable env : Env.

(** What [swapResolved] prints when it returns without error. *)
Lemma swapResolved_report (ctx : Context) paths pType pName pVer (st st' : State) :
  swapResolved env ctx paths pType pName pVer st = (Done None, st') ->
  let r := SwapPlugin env paths pType pName pVer in
  calls st' = (calls st ++ [CallSwapPlugin paths pType pName pVer])%list
  /\ exists out,
       stdout st' = (stdout st ++ out)%list
       /\ text out
          = Some (loadedBlock env (client.LoadedPlugin' r)
                  ++ blankLine ++ blankLine
                  ++ unloadedBlock (client.UnloadedPlugin r)).
Proof.
  unfold swapResolved.
  destruct (String.eqb pType ""); [discriminate|].
  destruct (String.eqb pName ""); [discriminate|].
  destruct (pVer <? 1); [discriminate|].
  unfold bind, call, ret, Println, Printf, write; cbv zeta.
  destruct (client.SwapErr (SwapPlugin env paths pType pName pVer)); [discriminate|].
  cbn [calls stdout]. intros [= <-]. cbn [calls stdout]. split; [reflexivity|].
  eexists. split.
  - repeat rewrite <- app_assoc. reflexivity.
  - unfold loadedBlock, unloadedBlock, blankLine, newline. cbn.
    repeat (rewrite append_assoc; cbn). reflexivity.
Qed.

End SwapReport.

(** C9 (amended).  Every swap that returns without error has made one
    remote swap call and has printed the block of the loaded plugin, two
    empty lines, and the block of the unloaded plugin, in that order. *)
Theorem swap_report (env : Env) (ctx : Context) (st' : State) :
  run (swapPlugins env ctx) = (Done None, st') ->
  exists paths pType pName pVer,
    calls st' = [CallSwapPlugin paths pType pName pVer]
    /\ let r := SwapPlugin env paths pType pName pVer in
       text (stdout st')
       = Some (loadedBlock env (client.LoadedPlugin' r)
               ++ blankLine ++ blankLine
               ++ unloadedBlock (client.UnloadedPlugin r)).
Proof.
  unfold run, swapPlugins.
  destruct ((List.length (Args ctx) <? 1)%nat || (2 <? List.length (Args ctx))%nat);
    [discriminate|].
  destruct (negb (String.eqb (String' ctx "plugin-asc") "")
            && negb (strings.Contains (String' ctx "plugin-asc") ".asc"));
    [discriminate|].
  assert (Hres : forall paths pType pName pVer,
             swapResolved env ctx paths pType pName pVer initial = (Done None, st') ->
             exists paths pType pName pVer,
               calls st' = [CallSwapPlugin paths pType pName pVer]
               /\ let r := SwapPlugin env paths pType pName pVer in
                  text (stdout st')
                  = Some (loadedBlock env (client.LoadedPlugin' r)
                          ++ blankLine ++ blankLine
                          ++ unloadedBlock (client.UnloadedPlugin r))).
  { intros paths pType pName pVer H.
    destruct (swapResolved_report env ctx paths pType pName pVer initial st' H)
      as (Hc & out & Ho & Ht).
    exists paths, pType, pName, pVer. split; [exact Hc|].
    cbn in Ho. rewrite Ho. exact Ht. }
  destruct (Args ctx) as [|a [|tok [|? ?]]]; try (apply Hres).
  destruct (filepath.SplitList tok) as [|d0 [|d1 [|d2 [|? ?]]]]; try discriminate.
  destruct (strconv.Atoi d2) as [v [err|]]; [discriminate|apply Hres].
Qed.

Lemma swap_report_witness :
  exists paths pType pName pVer,
    calls (snd (run (swapPlugins echoEnv swapLine)))
    = [CallSwapPlugin paths pType pName pVer]
    /\ let r := SwapPlugin echoEnv paths pType pName pVer in
       text (stdout (snd (run (swapPlugins echoEnv swapLine))))
       = Some (loadedBlock echoEnv (client.LoadedPlugin' r)
               ++ blankLine ++ blankLine
               ++ unloadedBlock (client.UnloadedPlugin r)).
Proof.
  apply (swap_report echoEnv swapLine
           (snd (run (swapPlugins echoEnv swapLine)))).
  vm_compute. reflexivity.
Defined.

(** The claim of C9 as it is written, with one empty line between the
    blocks, fails for [swap ./new.plugin storage:old-plugin:1]. *)
Lemma swap_report_has_two_blank_lines :
  exists st',
    run (swapPlugins echoEnv swapLine)
    = (Done None, st')
    /\ let r := SwapPlugin echoEnv ["./new.plugin"] "storage" "old-plugin" 1 in
       text (stdout st')
       <> Some (loadedBlock echoEnv (client.LoadedPlugin' r)
                ++ blankLine
                ++ unloadedBlock (client.UnloadedPlugin r)).
Proof.
  exists (snd (run (swapPlugins echoEnv swapLine))).
  split; [vm_compute; reflexivity|].
  vm_compute. discriminate.
Qed.

(* ================================================================== *)
(** ** The catalog filter *)

Section CatalogFacts.

Lemma Filter_acc (f : Plugin -> bool) (vs acc : list Plugin) :
  fold_left (fun vsf v => if f v then (vsf ++ [v])%list else vsf) vs acc
  = (acc ++ filter f vs)%list.
Proof.
  revert acc. induction vs as [|v vs IH]; intros acc; simpl.
  - now rewrite app_nil_r.
  - rewrite IH. destruct (f v); [|reflexivity].
    now rewrite <- app_assoc.
Qed.

(** [Filter] keeps the elements that satisfy [f], in their order. *)
Lemma Filter_filter (vs : list Plugin) (f : Plugin -> bool) :
  Filter vs f = filter f vs.
Proof. unfold Filter. now rewrite Filter_acc. Qed.

Lemma filter_filter (f g : Plugin -> bool) (vs : list Plugin) :
  filter g (filter f vs) = filter (fun v => f v && g v) vs.
Proof.
  induction vs as [|v vs IH]; simpl; [reflexivity|].
  destruct (f v); simpl; [destruct (g v)|]; now rewrite IH.
Qed.

Lemma catalogFilter_none (vs : list Plugin) : catalogFilter "" "" vs = vs.
Proof. reflexivity. Qed.

Lemma catalogFilter_type (typeFilter : string) (vs : list Plugin) :
  typeFilter <> "" ->
  catalogFilter typeFilter "" vs = filter (typeMatches typeFilter) vs.
Proof.
  intros Ht. apply String.eqb_neq in Ht. unfold catalogFilter.
  rewrite Ht. cbn. apply Filter_filter.
Qed.

(** With the name filter alone an entry passes on its full name or on
    its name. *)
Lemma catalogFilter_name (nameFilter : string) (vs : list Plugin) :
  nameFilter <> "" ->
  catalogFilter "" nameFilter vs = filter (nameMatches nameFilter) vs.
Proof.
  intros Hn. apply String.eqb_neq in Hn. unfold catalogFilter.
  rewrite Hn. cbn. apply Filter_filter.
Qed.

(** With both filters an entry passes on its type and its full name: the
    name is not looked at. *)
Lemma catalogFilter_both (typeFilter nameFilter : string) (vs : list Plugin) :
  typeFilter <> "" -> nameFilter <> "" ->
  catalogFilter typeFilter nameFilter vs
  = filter (fun v => typeMatches typeFilter v
                     && strings.Contains (FullName v) nameFilter) vs.
Proof.
  intros Ht Hn. apply String.eqb_neq in Ht, Hn. unfold catalogFilter.
  rewrite Ht, Hn. cbn. apply Filter_filter.
Qed.

(** Filtering by type and then by name is the conjunction of the type
    rule and the name rule. *)
Lemma catalogFilter_type_then_name (typeFilter nameFilter : string) (vs : list Plugin) :
  typeFilter <> "" -> nameFilter <> "" ->
  catalogFilter "" nameFilter (catalogFilter typeFilter "" vs)
  = filter (fun v => typeMatches typeFilter v && nameMatches nameFilter v) vs.
Proof.
  intros Ht Hn.
  rewrite (catalogFilter_type _ _ Ht), (catalogFilter_name _ _ Hn).
  apply filter_filter.
Qed.

End CatalogFacts.

(** [listCatalog] prints the catalog it fetched, filtered by the two
    flags. *)
Lemma listCatalog_prints_filtered
  (env : Env) (ctx : Context) (body : string) (pluginNames : list Plugin)
  (st : State) :
  http_Get env "http://staging.webapi.snap-telemetry.io/plugin" = inl body ->
  Unmarshal_Plugins env body = inl pluginNames ->
  listCatalog env ctx st
  = (Done None,
     printed
       (called st (CallHttpGet "http://staging.webapi.snap-telemetry.io/plugin"))
       [Formatted
          (MarshalIndent env
             (catalogFilter (String' ctx "plugin-type") (String' ctx "plugin-name")
                            pluginNames))]).
Proof.
  intros Hg Hu. unfold listCatalog, getPluginData, bind, call, ret, write.
  cbn [fst snd]. rewrite Hg, Hu. reflexivity.
Qed.

(** C3.  On the entry [cpuEntry] with the filters [collector] and [CPU],
    filtering by type and then by name keeps the entry, and the filter
    with both at once drops it: the two do not agree. *)
Theorem catalog_both_filters_differ_from_type_then_name :
  catalogFilter "" "CPU" (catalogFilter "collector" "" [cpuEntry]) = [cpuEntry]
  /\ catalogFilter "collector" "CPU" [cpuEntry] = [].
Proof. split; reflexivity. Qed.

(** C4.  The entry [cpuEntry] satisfies the type rule for [collector] and
    the name rule for [CPU] (by its name), and the name filter alone keeps
    it; with the type filter supplied as well the entry is dropped: the
    name is then not looked at. *)
Theorem catalog_name_rule_dropped_with_type_filter :
  typeMatches "collector" cpuEntry = true
  /\ nameMatches "CPU" cpuEntry = true
  /\ In cpuEntry (catalogFilter "" "CPU" [cpuEntry])
  /\ ~ In cpuEntry (catalogFilter "collector" "CPU" [cpuEntry]).
Proof.
  repeat split; try reflexivity.
  - left. reflexivity.
  - intros [].
Qed.

(* ================================================================== *)
(** ** Release links and the download for the platform *)

Section ReleaseFacts.

Variable env : Env.

Lemma latestReleaseData_ok (url body : string) (st : State) :
  http_Get env (releaseLink url) = inl body ->
  latestReleaseData env url st
  = (Done (inl (releaseDocument env body)),
     called st (CallHttpGet (releaseLink url))).
Proof.
  intros H. unfold latestReleaseData, bind, call, ret. cbv zeta. now rewrite H.
Qed.

Lemma printed_app (st : State) (a b : list Output) :
  printed (printed st a) b = printed st (a ++ b).
Proof. unfold printed. cbn. now rewrite <- app_assoc. Qed.

Lemma printed_nil (st : State) : printed st [] = st.
Proof. destruct st. unfold printed. cbn. now rewrite app_nil_r. Qed.

(** The loop stops with a panic at the first element that is not an
    object, after a line for each object before it. *)
Lemma printAssets_malformed (assets : list interface) (st : State) :
  forallb isObject assets = false ->
  exists msg,
    printAssets assets st
    = (Panic msg, printed st (map assetLine (leadingObjects assets))).
Proof.
  revert st. induction assets as [|v rest IH]; intros st H; [discriminate|].
  destruct v as [| | | |elems|asset];
    try (eexists; cbn; rewrite printed_nil; reflexivity).
  cbn in H. destruct (IH (printed st [Value (mapIndex asset "browser_download_url")]) H)
    as [msg E].
  exists msg. cbn. unfold bind, write.
  change {| calls := calls st;
            stdout := stdout st ++ [Value (mapIndex asset "browser_download_url")] |}
    with (printed st [Value (mapIndex asset "browser_download_url")]).
  rewrite E, printed_app. reflexivity.
Qed.

(** On objects only the loop prints a line for each and returns. *)
Lemma printAssets_objects (assets : list interface) (st : State) :
  forallb isObject assets = true ->
  printAssets assets st = (Done tt, printed st (map assetLine assets)).
Proof.
  revert st. induction assets as [|v rest IH]; intros st H.
  - cbn. now rewrite printed_nil.
  - destruct v; try discriminate. cbn in H. cbn. unfold bind, write.
    change {| calls := calls st;
              stdout := stdout st ++ [Value (mapIndex fields "browser_download_url")] |}
      with (printed st [Value (mapIndex fields "browser_download_url")]).
    rewrite (IH _ H), printed_app. reflexivity.
Qed.

End ReleaseFacts.

(** An object without the URL passes. *)
Lemma release_links_accepts_objects
  (env : Env) (ctx : Context) (repo body : string) (assets : list interface)
  (st : State) :
  Args ctx = [repo] ->
  http_Get env (releaseLink repo) = inl body ->
  mapIndex (releaseDocument env body) "assets" = Slice assets ->
  forallb isObject assets = true ->
  listReleaseLinks env ctx st
  = (Done None,
     printed (called st (CallHttpGet (releaseLink repo))) (map assetLine assets)).
Proof.
  intros Ha Hg Hi Hm. unfold listReleaseLinks. rewrite Ha.
  cbn [List.length Nat.eqb negb Get nth].
  unfold bind at 1. rewrite (latestReleaseData_ok env repo body st Hg), Hi.
  unfold bind. now rewrite (printAssets_objects assets _ Hm).
Qed.

(** C5 (amended).  When the [assets] field of the release document is
    missing, is not a sequence, or holds an element that is not an object,
    release-links ends in a panic, not in an error: after the request for
    the release it has printed one line for each object before the first
    element that is not one, and nothing when there is no sequence. *)
Theorem release_links_panics_on_malformed_assets
  (env : Env) (ctx : Context) (repo body : string) (st : State) :
  Args ctx = [repo] ->
  http_Get env (releaseLink repo) = inl body ->
  malformedAssets (releaseDocument env body) = true ->
  exists msg,
    listReleaseLinks env ctx st
    = (Panic msg,
       printed (called st (CallHttpGet (releaseLink repo)))
               (printedAssets (releaseDocument env body))).
Proof.
  intros Ha Hg Hm. unfold listReleaseLinks. rewrite Ha.
  cbn [List.length Nat.eqb negb Get nth].
  unfold bind at 1. rewrite (latestReleaseData_ok env repo body st Hg).
  unfold malformedAssets, printedAssets in *.
  destruct (mapIndex (releaseDocument env body) "assets") as [| | | |assets|];
    try (eexists; unfold panic; rewrite printed_nil; reflexivity).
  apply negb_true_iff in Hm.
  destruct (printAssets_malformed assets
              (called st (CallHttpGet (releaseLink repo))) Hm) as [msg E].
  exists msg. unfold bind. now rewrite E.
Qed.

(** The claim of C5 as it is written fails for a release document
    without [assets]: the command panics and returns no error. *)
Lemma release_links_missing_assets_panics :
  run (listReleaseLinks (releaseEnv "amd64") releaseCtx)
  = (Panic "interface conversion: interface {} is not []interface {}",
     {| calls := [CallHttpGet (releaseLink "snap-plugin-publisher-file")];
        stdout := [] |}).
Proof. reflexivity. Qed.

Lemma release_links_panics_on_malformed_assets_witness :
  exists msg,
    listReleaseLinks (sampleEnv (Some brokenAssets) "amd64")
      releaseCtx initial
    = (Panic msg,
       {| calls := [CallHttpGet (releaseLink "snap-plugin-publisher-file")];
          stdout := [Value (Str "u1")] |}).
Proof.
  apply (release_links_panics_on_malformed_assets
           (sampleEnv (Some brokenAssets) "amd64")
           releaseCtx "snap-plugin-publisher-file" "body" initial);
    reflexivity.
Defined.

Section DownloadFacts.

Variable env : Env.

(** [downloadxPlugin] once the release document is there and holds a
    [tag_name] string: the switch on the architecture. *)
Lemma downloadxPlugin_reached
  (ctx : Context) (repo body tag_name : string) (st : State) :
  Args ctx = [repo] ->
  http_Get env (releaseLink repo) = inl body ->
  mapIndex (releaseDocument env body) "tag_name" = Str tag_name ->
  downloadxPlugin env ctx st
  = match archName (GOARCH env) with
    | None => ret (Some (Error "This arch is not yet supported"))
    | Some arch =>
        download env (downloadLink repo (majorTag tag_name) (GOOS env) arch) repo ;;;
        ret None
    end (called st (CallHttpGet (releaseLink repo))).
Proof.
  intros Ha Hg Ht. unfold downloadxPlugin. rewrite Ha.
  cbn [List.length Nat.eqb negb First Get nth].
  unfold bind at 1. rewrite (latestReleaseData_ok env repo body st Hg), Ht.
  unfold majorTag.
  pose proof (Split_nonempty "." tag_name) as Hne.
  destruct (strings.Split tag_name ".") as [|tag rest]; [congruence|].
  reflexivity.
Qed.

Lemma archName_other (goarch : string) :
  goarch <> "amd64" -> goarch <> "386" -> archName goarch = None.
Proof.
  intros H1 H2. apply String.eqb_neq in H1, H2. unfold archName. now rewrite H1, H2.
Qed.

(** On an architecture that is not supported nothing is printed, no file
    is created and the only request, if any, is the one for the release. *)
Lemma downloadxPlugin_unsupported (ctx : Context) (st : State) :
  archName (GOARCH env) = None ->
  let st' := snd (downloadxPlugin env ctx st) in
  stdout st' = stdout st
  /\ (calls st' = calls st
      \/ calls st' = (calls st ++ [CallHttpGet (releaseLink (First (Args ctx)))])%list).
Proof.
  intros Harch. unfold downloadxPlugin.
  destruct (negb (List.length (Args ctx) =? 1)%nat); [cbn; auto|].
  unfold bind at 1. unfold latestReleaseData, bind, call, ret. cbv zeta.
  destruct (http_Get env (releaseLink (First (Args ctx)))) as [body|err]; [|cbn; auto].
  destruct (mapIndex (releaseDocument env body) "tag_name"); try (cbn; auto).
  destruct (strings.Split s "."); [cbn; auto|].
  rewrite Harch. cbn. auto.
Qed.

(** A download into a named file starts by announcing the link and
    creating the file. *)
Lemma download_begins (url name : string) (st : State) :
  name <> "" ->
  exists cs out,
    calls (snd (download env url name st))
    = (calls st ++ CallCreate name :: cs)%list
    /\ stdout (snd (download env url name st))
       = (stdout st
          ++ Text ("Downloading " ++ url ++ " to " ++ name ++ newline) :: out)%list.
Proof.
  intros Hn. apply String.eqb_neq in Hn. unfold download. rewrite Hn.
  unfold bind, call, ret, Println, write. cbn [fst snd calls stdout].
  destruct (os_Create env name) as [err|].
  { exists [], []. cbn. split; [reflexivity|].
    now rewrite !append_assoc. }
  destruct (http_Get env url) as [body|err]; cbn [fst snd calls stdout].
  - destruct (io_Copy env name body) as [n [err|]]; cbn [fst snd calls stdout];
      eexists _, _; rewrite <- !app_assoc, !append_assoc; split; reflexivity.
  - eexists _, _. rewrite <- !app_assoc, !append_assoc. split; reflexivity.
Qed.

Lemma majorTag_dotted (major rest : string) :
  strings.ContainsRune major "." = false ->
  majorTag (major ++ "." ++ rest) = major.
Proof.
  intros H. unfold majorTag.
  change (major ++ "." ++ rest) with (major ++ String "." rest).
  now rewrite (Split_at_sep _ _ _ H).
Qed.

Lemma majorTag_plain (major : string) :
  strings.ContainsRune major "." = false -> majorTag major = major.
Proof. intros H. unfold majorTag. now rewrite (Split_without_sep _ _ H). Qed.

End DownloadFacts.

(** C6.  Once the release document is there, [amd64] is mapped to [x86_64]
    and [386] to [x86_32] in the link that is downloaded, and on every
    other architecture the command returns the error [This arch is not yet
    supported] with the request for the release as its only effect: no
    link is built and no download is started. *)
Theorem architecture_mapping
  (env : Env) (ctx : Context) (repo body tag_name : string) (st : State) :
  Args ctx = [repo] ->
  http_Get env (releaseLink repo) = inl body ->
  mapIndex (releaseDocument env body) "tag_name" = Str tag_name ->
  let st1 := called st (CallHttpGet (releaseLink repo)) in
  let fetch arch :=
    (download env (downloadLink repo (majorTag tag_name) (GOOS env) arch) repo ;;;
     ret None) st1 in
  (GOARCH env = "amd64" -> downloadxPlugin env ctx st = fetch "x86_64")
  /\ (GOARCH env = "386" -> downloadxPlugin env ctx st = fetch "x86_32")
  /\ (GOARCH env <> "amd64" -> GOARCH env <> "386" ->
      downloadxPlugin env ctx st
      = (Done (Some (Error "This arch is not yet supported")), st1)).
Proof.
  intros Ha Hg Ht st1 fetch.
  rewrite (downloadxPlugin_reached env ctx repo body tag_name st Ha Hg Ht).
  repeat split.
  - intros ->. reflexivity.
  - intros ->. reflexivity.
  - intros H1 H2. now rewrite (archName_other _ H1 H2).
Qed.

Lemma architecture_mapping_witness :
  run (downloadxPlugin (releaseEnv "arm64") releaseCtx)
  = (Done (Some (Error "This arch is not yet supported")),
     {| calls := [CallHttpGet (releaseLink "snap-plugin-publisher-file")];
        stdout := [] |}).
Proof.
  apply (architecture_mapping (releaseEnv "arm64") releaseCtx
           "snap-plugin-publisher-file" "body" "2.4.1-beta" initial);
    try reflexivity; discriminate.
Defined.

(** C7.  For a [tag_name] that reads [major.rest], with no dot in
    [major], the tag in the link that is downloaded is [major]; for
    [2.4.1-beta] it is [2]. *)
Theorem major_tag_is_token_before_first_dot
  (env : Env) (ctx : Context) (repo body major rest arch : string) (st : State) :
  Args ctx = [repo] ->
  http_Get env (releaseLink repo) = inl body ->
  mapIndex (releaseDocument env body) "tag_name" = Str (major ++ "." ++ rest) ->
  strings.ContainsRune major "." = false ->
  archName (GOARCH env) = Some arch ->
  majorTag (major ++ "." ++ rest) = major
  /\ downloadxPlugin env ctx st
     = (download env (downloadLink repo major (GOOS env) arch) repo ;;; ret None)
         (called st (CallHttpGet (releaseLink repo))).
Proof.
  intros Ha Hg Ht Hm Harch.
  rewrite (downloadxPlugin_reached env ctx repo body _ st Ha Hg Ht), Harch.
  rewrite (majorTag_dotted major rest Hm). split; reflexivity.
Qed.

Lemma major_tag_is_token_before_first_dot_witness :
  majorTag "2.4.1-beta" = "2"
  /\ downloadxPlugin (releaseEnv "amd64") releaseCtx initial
     = (download (releaseEnv "amd64")
          ("https://github.com/intelsdi-x/snap-plugin-publisher-file"
           ++ "/releases/download/2/snap-plugin-publisher-file_linux_x86_64")
          "snap-plugin-publisher-file" ;;; ret None)
         {| calls := [CallHttpGet (releaseLink "snap-plugin-publisher-file")];
            stdout := [] |}.
Proof.
  apply (major_tag_is_token_before_first_dot (releaseEnv "amd64") releaseCtx
           "snap-plugin-publisher-file" "body" "2" "4.1-beta" "x86_64" initial);
    reflexivity.
Defined.

(* ================================================================== *)
(** * More of the code *)

(* ================================================================== *)
(** ** More facts about the library functions *)

Section SplitFacts.

Variable sep : ascii.

Lemma Split_length (s : string) :
  List.length (strings.Split s sep) = S (CountRune s sep).
Proof.
  induction s as [|c s IH]; [reflexivity|]. cbn [strings.Split CountRune].
  destruct (Ascii.eqb c sep).
  - cbn. now rewrite IH.
  - destruct (strings.Split s sep) as [|p ps]; [discriminate IH|exact IH].
Qed.

Lemma Join_Split (s : string) : Join (strings.Split s sep) sep = s.
Proof.
  induction s as [|c s IH]; [reflexivity|]. cbn [strings.Split].
  pose proof (Split_nonempty sep s) as Hne.
  destruct (Ascii.eqb_spec c sep) as [->|Hc];
    destruct (strings.Split s sep) as [|p ps]; try congruence.
  - cbn [Join]. cbn [Join] in IH. now rewrite IH.
  - destruct ps as [|q qs]; cbn [Join] in *; cbn; now rewrite IH.
Qed.

Lemma Split_pieces_clean (s : string) :
  Forall (fun piece => strings.ContainsRune piece sep = false) (strings.Split s sep).
Proof.
  induction s as [|c s IH]; [repeat constructor|]. cbn [strings.Split].
  destruct (Ascii.eqb c sep) eqn:Hc.
  - constructor; [reflexivity|exact IH].
  - destruct (strings.Split s sep) as [|p ps];
      [repeat constructor; cbn; now rewrite Hc|].
    inversion IH as [|? ? Hp Hps]; subst. constructor; [|exact Hps].
    cbn. now rewrite Hc, Hp.
Qed.

(** A string that holds the separator splits into two pieces or more. *)
Lemma Split_two_pieces (a b : string) :
  exists p q ps, strings.Split (a ++ String sep b) sep = p :: q :: ps.
Proof.
  induction a as [|c a (p & q & ps & IH)]; cbn [append strings.Split].
  - rewrite Ascii.eqb_refl. pose proof (Split_nonempty sep b) as Hne.
    destruct (strings.Split b sep) as [|q ps]; [congruence|]. now eexists _, _, _.
  - rewrite IH. destruct (Ascii.eqb c sep); now eexists _, _, _.
Qed.

(** The last piece is what follows the last separator. *)
Lemma Split_last (a b : string) :
  strings.ContainsRune b sep = false ->
  exists pieces, rev (strings.Split (a ++ String sep b) sep) = b :: pieces.
Proof.
  intros Hb. induction a as [|c a [pieces IH]]; cbn [append strings.Split].
  - rewrite Ascii.eqb_refl, (Split_without_sep _ _ Hb). now exists [""].
  - destruct (Split_two_pieces a b) as (p & q & ps & E). rewrite E in *.
    assert (Hq : exists zs, rev (q :: ps) = b :: zs).
    { cbn [rev] in IH. destruct (rev ps ++ [q])%list as [|z zs] eqn:Ez.
      - destruct (rev ps); discriminate.
      - cbn in IH. injection IH as -> _. now exists zs. }
    destruct Hq as [zs Hq].
    destruct (Ascii.eqb c sep).
    + exists (zs ++ [p] ++ [""])%list.
      change (rev ("" :: p :: q :: ps)) with ((rev (q :: ps) ++ [p]) ++ [""])%list.
      rewrite Hq. cbn. now rewrite <- app_assoc.
    + exists (zs ++ [String c p])%list.
      change (rev (String c p :: q :: ps)) with (rev (q :: ps) ++ [String c p])%list.
      now rewrite Hq.
Qed.

End SplitFacts.

Section ContainsFacts.

Lemma prefix_spec (p s : string) :
  String.prefix p s = true <-> exists b, s = p ++ b.
Proof.
  revert s. induction p as [|c p IH]; intros s.
  - split; [now exists s|now destruct s].
  - destruct s as [|c' s]; cbn.
    + split; [discriminate|intros [b H]; discriminate].
    + destruct (Ascii.ascii_dec c c') as [->|Hc].
      * rewrite IH. split; intros [b H]; exists b; congruence.
      * split; [discriminate|intros [b H]; congruence].
Qed.

(** [Contains] finds [substr] exactly when it occurs somewhere in [s]. *)
Lemma Contains_spec (s substr : string) :
  strings.Contains s substr = true <-> exists a b, s = a ++ substr ++ b.
Proof.
  induction s as [|c s IH]; cbn [strings.Contains].
  - destruct (String.prefix substr "") eqn:E.
    + split; [|reflexivity]. intros _. apply prefix_spec in E as [b E].
      exists "", b. exact E.
    + split; [discriminate|]. intros (a & b & H).
      destruct a; [|discriminate]. cbn in H.
      assert (String.prefix substr "" = true) by (apply prefix_spec; now exists b).
      congruence.
  - destruct (String.prefix substr (String c s)) eqn:E.
    + split; [|reflexivity]. intros _. apply prefix_spec in E as [b E].
      exists "", b. exact E.
    + rewrite IH. split.
      * intros (a & b & ->). now exists (String c a), b.
      * intros (a & b & H). destruct a as [|c' a].
        -- cbn in H. assert (String.prefix substr (String c s) = true)
             by (apply prefix_spec; now exists b). congruence.
        -- cbn in H. injection H as -> ->. now exists a, b.
Qed.

Lemma Contains_trans (s t u : string) :
  strings.Contains s t = true -> strings.Contains t u = true ->
  strings.Contains s u = true.
Proof.
  rewrite !Contains_spec. intros (a & b & ->) (a' & b' & ->).
  exists (a ++ a'), (b' ++ b). now rewrite !append_assoc.
Qed.

End ContainsFacts.

(* ================================================================== *)
(** ** Unload and swap *)

Section UnloadFacts.

Variable env : Env.

(** [unloadPlugin] once its four checks pass: the remote call and what
    follows from its result. *)
Lemma unloadPlugin_reached (ctx : Context) (pVer : Z) (st : State) :
  Get (Args ctx) 0 <> "" ->
  Get (Args ctx) 1 <> "" ->
  strconv.Atoi (Get (Args ctx) 2) = (pVer, None) ->
  1 <= pVer ->
  let pType := Get (Args ctx) 0 in
  let pName := Get (Args ctx) 1 in
  let r := UnloadPlugin env pType pName pVer in
  let st1 := called st (CallUnloadPlugin pType pName pVer) in
  unloadPlugin env ctx st
  = match client.UnloadErr r with
    | Some e =>
        (Done (Some (Error ("Error unloading plugin:" ++ newline ++ e ++ newline))),
         st1)
    | None =>
        (Done None,
         printed st1
           [Text ("Plugin unloaded" ++ newline);
            Text ("Name: " ++ client.UnloadedName (client.Unloaded r) ++ newline);
            Text ("Version: "
                  ++ strconv.Itoa (client.UnloadedVersion (client.Unloaded r))
                  ++ newline);
            Text ("Type: " ++ client.UnloadedType (client.Unloaded r) ++ newline)])
    end.
Proof.
  intros Ht Hn Ha Hv. cbv zeta. unfold unloadPlugin. rewrite Ha.
  rewrite (eqb_nonempty _ Ht), (eqb_nonempty _ Hn).
  destruct (Z.ltb_spec pVer 1) as [|_]; [lia|].
  unfold bind, call, ret, Println, Printf, write, called, printed; cbv zeta.
  destruct (client.UnloadErr _); cbn [calls stdout]; [reflexivity|].
  repeat rewrite <- app_assoc. reflexivity.
Qed.

End UnloadFacts.

(** X1.  On a command line that passes the checks of unload, when the remote
    client reports success, one [UnloadPlugin] call is made and the text
    printed is the block of the plugin in the response (heading, name,
    version, type), the same block swap prints for its unloaded plugin. *)
Theorem unload_reports_the_response
  (env : Env) (ctx : Context) (pVer : Z) (st : State) :
  Get (Args ctx) 0 <> "" ->
  Get (Args ctx) 1 <> "" ->
  strconv.Atoi (Get (Args ctx) 2) = (pVer, None) ->
  1 <= pVer ->
  let r := UnloadPlugin env (Get (Args ctx) 0) (Get (Args ctx) 1) pVer in
  client.UnloadErr r = None ->
  exists st',
    unloadPlugin env ctx st = (Done None, st')
    /\ calls st'
       = (calls st
          ++ [CallUnloadPlugin (Get (Args ctx) 0) (Get (Args ctx) 1) pVer])%list
    /\ exists out,
         stdout st' = (stdout st ++ out)%list
         /\ text out = Some (unloadedBlock (client.Unloaded r)).
Proof.
  intros Ht Hn Ha Hv r He.
  rewrite (unloadPlugin_reached env ctx pVer st Ht Hn Ha Hv). fold r. rewrite He.
  eexists. split; [reflexivity|]. split; [reflexivity|].
  eexists. split; [reflexivity|].
  unfold unloadedBlock, newline. cbn.
  repeat (rewrite append_assoc; cbn). reflexivity.
Qed.

Lemma unload_reports_the_response_witness :
  exists st',
    unloadPlugin echoEnv (noFlags ["publisher"; "file"; "12"]) initial = (Done None, st')
    /\ calls st' = [CallUnloadPlugin "publisher" "file" 12]
    /\ exists out,
         stdout st' = out
         /\ text out
            = Some (unloadedBlock
                      (client.Unloaded (UnloadPlugin echoEnv "publisher" "file" 12))).
Proof.
  apply (unload_reports_the_response echoEnv (noFlags ["publisher"; "file"; "12"])
           12 initial); try reflexivity; try discriminate.
Defined.

(** X2.  On a command line that passes the checks of unload, an error of the
    remote client is returned as [Error unloading plugin:] followed by its
    text, after one [UnloadPlugin] call; nothing is printed. *)
Theorem unload_remote_error_prints_nothing
  (env : Env) (ctx : Context) (pVer : Z) (e : string) (st : State) :
  Get (Args ctx) 0 <> "" ->
  Get (Args ctx) 1 <> "" ->
  strconv.Atoi (Get (Args ctx) 2) = (pVer, None) ->
  1 <= pVer ->
  client.UnloadErr (UnloadPlugin env (Get (Args ctx) 0) (Get (Args ctx) 1) pVer)
  = Some e ->
  unloadPlugin env ctx st
  = (Done (Some (Error ("Error unloading plugin:" ++ newline ++ e ++ newline))),
     called st (CallUnloadPlugin (Get (Args ctx) 0) (Get (Args ctx) 1) pVer)).
Proof.
  intros Ht Hn Ha Hv He.
  rewrite (unloadPlugin_reached env ctx pVer st Ht Hn Ha Hv). cbv zeta.
  now rewrite He.
Qed.

Lemma unload_remote_error_prints_nothing_witness :
  unloadPlugin (failingEnv "plugin not found") (noFlags ["publisher"; "file"; "12"])
    initial
  = (Done (Some (Error ("Error unloading plugin:" ++ newline
                        ++ "plugin not found" ++ newline))),
     {| calls := [CallUnloadPlugin "publisher" "file" 12]; stdout := [] |}).
Proof.
  apply (unload_remote_error_prints_nothing (failingEnv "plugin not found")
           (noFlags ["publisher"; "file"; "12"]) 12 "plugin not found" initial);
    try reflexivity; try discriminate.
Defined.

(** X3.  Unload reads its first three arguments and nothing else: further
    arguments and all flags have no effect on outcome, call or output. *)
Theorem unload_reads_three_arguments_only
  (env : Env) (ctx1 ctx2 : Context) (st : State) :
  Get (Args ctx1) 0 = Get (Args ctx2) 0 ->
  Get (Args ctx1) 1 = Get (Args ctx2) 1 ->
  Get (Args ctx1) 2 = Get (Args ctx2) 2 ->
  unloadPlugin env ctx1 st = unloadPlugin env ctx2 st.
Proof.
  intros H0 H1 H2. unfold unloadPlugin. now rewrite H0, H1, H2.
Qed.

Lemma unload_reads_three_arguments_only_witness :
  unloadPlugin echoEnv (noFlags ["publisher"; "file"; "12"]) initial
  = unloadPlugin echoEnv
      (specFlags ["publisher"; "file"; "12"; "13"; "more"] "collector" "cpu" 4) initial.
Proof.
  apply unload_reads_three_arguments_only; reflexivity.
Defined.

Section SwapMore.

Variable env : Env.

Lemma SplitList_three (tok : string) :
  (exists d0 d1 d2, filepath.SplitList tok = [d0; d1; d2])
  <-> CountRune tok filepath.ListSeparator = 2%nat.
Proof.
  unfold filepath.SplitList. destruct tok as [|c tok].
  - cbn. split; [intros (? & ? & ? & H); discriminate|discriminate].
  - change (String.eqb (String c tok) "") with false. cbv iota.
    pose proof (Split_length filepath.ListSeparator (String c tok)) as Hl.
    split.
    + intros (d0 & d1 & d2 & H). rewrite H in Hl. cbn [List.length] in Hl. lia.
    + intros H. rewrite H in Hl.
      destruct (strings.Split (String c tok) filepath.ListSeparator)
        as [|d0 [|d1 [|d2 [|? ?]]]]; try discriminate Hl.
      now exists d0, d1, d2.
Qed.

End SwapMore.

(** X4.  Swap accepts a signature flag that holds [.asc] anywhere, not only at
    its end, and hands it to the remote call as the second path, after the
    plugin path. *)
Theorem swap_accepts_asc_anywhere_in_signature
  (env : Env) (ctx : Context) (path before after : string) (st : State) :
  Args ctx = [path] ->
  String' ctx "plugin-asc" = before ++ ".asc" ++ after ->
  String' ctx "plugin-type" <> "" ->
  String' ctx "plugin-name" <> "" ->
  1 <= Int ctx "plugin-version" ->
  calls (snd (swapPlugins env ctx st))
  = (calls st
     ++ [CallSwapPlugin [path; (before ++ ".asc" ++ after)%string]
           (String' ctx "plugin-type") (String' ctx "plugin-name")
           (Int ctx "plugin-version")])%list.
Proof.
  intros Ha Hs Ht Hn Hv.
  assert (Hc : strings.Contains (String' ctx "plugin-asc") ".asc" = true)
    by (apply Contains_spec; now exists before, after).
  assert (Hok : ascOK ctx = true) by (unfold ascOK; now rewrite Hc, orb_true_r).
  assert (Hne : String.eqb (String' ctx "plugin-asc") "" = false).
  { rewrite Hs. destruct before; reflexivity. }
  rewrite (swapPlugins_flags env ctx path Ha Hok).
  destruct (swapResolved_valid env ctx (swapPaths ctx) _ _ _ st Ht Hn Hv)
    as (r & st' & E & Hcalls & _).
  rewrite E. cbn [snd]. rewrite Hcalls.
  unfold swapPaths. rewrite Hne, Ha, Hs. reflexivity.
Qed.

Lemma swap_accepts_asc_anywhere_in_signature_witness :
  calls (snd (swapPlugins echoEnv
                (signedFlags ["./new.plugin"] "new.asc.bak" "storage" "old-plugin" 1)
                initial))
  = [CallSwapPlugin ["./new.plugin"; "new.asc.bak"] "storage" "old-plugin" 1].
Proof.
  apply (swap_accepts_asc_anywhere_in_signature echoEnv
           (signedFlags ["./new.plugin"] "new.asc.bak" "storage" "old-plugin" 1)
           "./new.plugin" "new" ".bak" initial);
    try reflexivity; try discriminate.
Defined.

(** X5.  With two arguments and an acceptable signature flag, swap answers
    [Missing type, name, or version], with no effect, exactly when the
    token does not hold two separators. *)
Theorem swap_token_needs_two_separators
  (env : Env) (ctx : Context) (path tok : string) (st : State) :
  Args ctx = [path; tok] ->
  ascOK ctx = true ->
  swapPlugins env ctx st
  = (Done (Some (UsageError "Missing type, name, or version")), st)
  <-> CountRune tok filepath.ListSeparator <> 2%nat.
Proof.
  intros Ha Hok. rewrite <- SplitList_three. split.
  - intros H (d0 & d1 & d2 & Hs).
    rewrite (swapPlugins_token env ctx path tok d0 d1 d2 Ha Hok Hs) in H.
    destruct (strconv.Atoi d2) as [v [err|]]; [discriminate H|].
    unfold swapResolved in H.
    destruct (String.eqb d0 ""); [discriminate H|].
    destruct (String.eqb d1 ""); [discriminate H|].
    destruct (v <? 1); [discriminate H|].
    unfold bind, call, ret, Println, Printf, write in H; cbv zeta in H.
    destruct (client.SwapErr _); discriminate H.
  - intros H. unfold swapPlugins. rewrite (asc_guard _ Hok), Ha. cbn.
    destruct (filepath.SplitList tok) as [|d0 [|d1 [|d2 [|? ?]]]]; try reflexivity.
    exfalso. apply H. now exists d0, d1, d2.
Qed.

Lemma swap_token_needs_two_separators_witness :
  swapPlugins echoEnv (noFlags ["./new.plugin"; "storage:old-plugin"]) initial
  = (Done (Some (UsageError "Missing type, name, or version")), initial)
  <-> CountRune "storage:old-plugin" filepath.ListSeparator <> 2%nat.
Proof.
  apply (swap_token_needs_two_separators echoEnv
           (noFlags ["./new.plugin"; "storage:old-plugin"]) "./new.plugin");
    reflexivity.
Defined.

(** X6.  When swap reaches the remote call, in the token form or the flag
    form, an error of the remote client is returned as [Error swapping
    plugins:] followed by its text, after one [SwapPlugin] call; nothing
    is printed. *)
Theorem swap_remote_error_prints_nothing
  (env : Env) (ctx : Context) (pType pName : string) (text : option string)
  (pVer : Z) (e : string) (st : State) :
  Resolves Swap ctx pType pName text pVer ->
  pType <> "" -> pName <> "" -> ~ unparsable text -> 1 <= pVer ->
  client.SwapErr (SwapPlugin env (swapPaths ctx) pType pName pVer) = Some e ->
  swapPlugins env ctx st
  = (Done (Some (Error ("Error swapping plugins:" ++ newline ++ e ++ newline))),
     called st (CallSwapPlugin (swapPaths ctx) pType pName pVer)).
Proof.
  intros R Ht Hn Hu Hv He.
  assert (Hres : swapResolved env ctx (swapPaths ctx) pType pName pVer st
                 = (Done (Some (Error ("Error swapping plugins:" ++ newline
                                       ++ e ++ newline))),
                    called st (CallSwapPlugin (swapPaths ctx) pType pName pVer))).
  { unfold swapResolved. rewrite (eqb_nonempty _ Ht), (eqb_nonempty _ Hn).
    destruct (Z.ltb_spec pVer 1) as [|_]; [lia|].
    unfold bind, call, ret; cbv zeta. now rewrite He. }
  inversion R as [ | ctx' path tok d0 d1 d2 Ha Hok Hs | ctx' path Ha Hok]; subst.
  - rewrite (swapPlugins_token env ctx path tok pType pName d2 Ha Hok Hs).
    destruct (strconv.Atoi d2) as [v [err|]] eqn:E; cbn [fst] in *.
    + exfalso. apply Hu. exists d2. rewrite E. split; [reflexivity|discriminate].
    + exact Hres.
  - rewrite (swapPlugins_flags env ctx path Ha Hok). exact Hres.
Qed.

Lemma swap_remote_error_prints_nothing_witness :
  swapPlugins (failingEnv "plugin is in use") swapLine initial
  = (Done (Some (Error ("Error swapping plugins:" ++ newline
                        ++ "plugin is in use" ++ newline))),
     {| calls := [CallSwapPlugin ["./new.plugin"] "storage" "old-plugin" 1];
        stdout := [] |}).
Proof.
  apply (swap_remote_error_prints_nothing (failingEnv "plugin is in use") swapLine
           "storage" "old-plugin" (Some "1") 1 "plugin is in use" initial);
    try reflexivity; try discriminate.
  - apply (resolves_swap_token swapLine "./new.plugin" "storage:old-plugin:1"
             "storage" "old-plugin" "1"); reflexivity.
  - intros (s & [= <-] & H). now apply H.
Defined.

(** The effects of unload and swap, whatever the command line. *)
Lemma parser_commands_effects
  (env : Env) (c : ParserCommand) (ctx : Context) (st : State) :
  exists r st',
    exec env c ctx st = (Done r, st')
    /\ (calls st' = calls st \/ exists one, calls st' = (calls st ++ [one])%list)
    /\ (r <> None -> stdout st' = stdout st)
    /\ (calls st' = calls st -> exists msg, r = Some (UsageError msg)).
Proof.
  assert (Hres : forall paths pType pName pVer,
             exists r st',
               swapResolved env ctx paths pType pName pVer st = (Done r, st')
               /\ (calls st' = calls st
                   \/ exists one, calls st' = (calls st ++ [one])%list)
               /\ (r <> None -> stdout st' = stdout st)
               /\ (calls st' = calls st -> exists msg, r = Some (UsageError msg))).
  { intros paths pType pName pVer. unfold swapResolved.
    destruct (String.eqb pType "");
      [eexists _, _; repeat split; eauto; now eexists|].
    destruct (String.eqb pName "");
      [eexists _, _; repeat split; eauto; now eexists|].
    destruct (pVer <? 1);
      [eexists _, _; repeat split; eauto; now eexists|].
    unfold bind, call, ret, Println, Printf, write; cbv zeta.
    destruct (client.SwapErr _); eexists _, _; cbn [calls stdout];
      (split; [reflexivity|]); (split; [right; now eexists|]);
      (split; [intros Hr; first [reflexivity|congruence]|]);
      intros H; exfalso; cbn [calls] in H;
      apply (f_equal (@List.length Call)) in H; rewrite length_app in H;
      cbn in H; lia. }
  destruct c; cbn [exec].
  - unfold unloadPlugin.
    destruct (strconv.Atoi (Get (Args ctx) 2)) as [v err].
    destruct (String.eqb (Get (Args ctx) 0) "");
      [eexists _, _; repeat split; eauto; now eexists|].
    destruct (String.eqb (Get (Args ctx) 1) "");
      [eexists _, _; repeat split; eauto; now eexists|].
    destruct err; [eexists _, _; repeat split; eauto; now eexists|].
    destruct (v <? 1); [eexists _, _; repeat split; eauto; now eexists|].
    unfold bind, call, ret, Println, Printf, write; cbv zeta.
    destruct (client.UnloadErr _); eexists _, _; cbn [calls stdout];
      (split; [reflexivity|]); (split; [right; now eexists|]);
      (split; [intros Hr; first [reflexivity|congruence]|]);
      intros H; exfalso; cbn [calls] in H;
      apply (f_equal (@List.length Call)) in H; rewrite length_app in H;
      cbn in H; lia.
  - unfold swapPlugins.
    destruct ((List.length (Args ctx) <? 1)%nat || (2 <? List.length (Args ctx))%nat);
      [eexists _, _; repeat split; eauto; now eexists|].
    destruct (negb (String.eqb (String' ctx "plugin-asc") "")
              && negb (strings.Contains (String' ctx "plugin-asc") ".asc"));
      [eexists _, _; repeat split; eauto; now eexists|].
    destruct (Args ctx) as [|a [|tok [|? ?]]]; try (apply Hres).
    destruct (filepath.SplitList tok) as [|d0 [|d1 [|d2 [|? ?]]]];
      try (eexists _, _; repeat split; eauto; now eexists).
    destruct (strconv.Atoi d2) as [v [err|]];
      [eexists _, _; repeat split; eauto; now eexists|apply Hres].
Qed.

(** X7.  Unload and swap never panic, make at most one remote call, print
    only when they return no error, and make no call exactly when they
    return a usage error. *)
Theorem parser_commands_call_at_most_once
  (env : Env) (c : ParserCommand) (ctx : Context) (st : State) :
  exists r st',
    exec env c ctx st = (Done r, st')
    /\ (calls st' = calls st \/ exists one, calls st' = (calls st ++ [one])%list)
    /\ (r <> None -> stdout st' = stdout st)
    /\ (calls st' = calls st <-> exists msg, r = Some (UsageError msg)).
Proof.
  destruct (parser_commands_effects env c ctx st) as (r & st' & E & H1 & H2 & H3).
  exists r, st'. repeat split; auto.
  intros [msg ->]. now rewrite (usage_error_makes_no_call env c ctx msg st st' E).
Qed.

Section RangeFacts.

(** A number above the range of [int] is refused with a range error. *)
Lemma Atoi_Itoa_above (v : Z) :
  strconv.MaxInt < v ->
  strconv.Atoi (strconv.Itoa v) = (strconv.MaxInt, Some strconv.ErrRange).
Proof.
  intros Hv. destruct v as [|p|p]; try (unfold strconv.MaxInt in Hv; lia).
  destruct (Itoa_pos_head p) as (c & r & E & Hc).
  pose proof (digits_to_uint p) as H. rewrite <- Itoa_pos, E in H.
  rewrite E. unfold strconv.Atoi.
  assert (Hm : Ascii.eqb c "-" = false)
    by (apply Ascii.eqb_neq; intros ->; apply Hc; reflexivity).
  assert (Hp : Ascii.eqb c "+" = false)
    by (apply Ascii.eqb_neq; intros ->; apply Hc; reflexivity).
  rewrite Hm, Hp. cbn [orb]. rewrite H.
  unfold strconv.MinInt, strconv.MaxInt in *.
  destruct (Z.ltb_spec (Z.pos p) (- 2 ^ 63)); [lia|].
  destruct (Z.ltb_spec (2 ^ 63 - 1) (Z.pos p)); [reflexivity|lia].
Qed.

End RangeFacts.

(** X8.  Unload with a non-empty type and name and the decimal text of a
    version from 1 to the largest [int] calls [UnloadPlugin] once with that
    type, name and version; the type and the name may hold any byte, the
    separator of swap included. *)
Theorem unload_calls_with_the_decimal_version
  (env : Env) (ctx : Context) (pType pName : string) (pVer : Z) (st : State) :
  pType <> "" -> pName <> "" ->
  1 <= pVer <= strconv.MaxInt ->
  Args ctx = [pType; pName; strconv.Itoa pVer] ->
  calls (snd (unloadPlugin env ctx st))
  = (calls st ++ [CallUnloadPlugin pType pName pVer])%list.
Proof.
  intros Ht Hn Hv Ha.
  assert (H0 : Get (Args ctx) 0 = pType) by now rewrite Ha.
  assert (H1 : Get (Args ctx) 1 = pName) by now rewrite Ha.
  assert (H2 : Get (Args ctx) 2 = strconv.Itoa pVer) by now rewrite Ha.
  rewrite (unloadPlugin_reached env ctx pVer st); rewrite ?H0, ?H1, ?H2; auto;
    [|now apply Atoi_Itoa|lia].
  cbv zeta. destruct (client.UnloadErr _); reflexivity.
Qed.

Lemma unload_calls_with_the_decimal_version_witness :
  calls (snd (unloadPlugin echoEnv (noFlags ["a:b"; "file"; strconv.Itoa 4096])
                initial))
  = [CallUnloadPlugin "a:b" "file" 4096].
Proof.
  apply (unload_calls_with_the_decimal_version echoEnv
           (noFlags ["a:b"; "file"; strconv.Itoa 4096]) "a:b" "file" 4096 initial);
    try reflexivity; try discriminate.
  vm_compute. split; discriminate.
Defined.

(** X9.  A version above the range of [int] is refused by unload and by the
    token form of swap as a version that does not parse, with no remote
    call: it is not wrapped around. *)
Theorem version_above_int_range_is_invalid
  (env : Env) (pType pName path : string) (pVer : Z) (st : State) :
  pType <> "" -> pName <> "" ->
  strings.ContainsRune pType filepath.ListSeparator = false ->
  strings.ContainsRune pName filepath.ListSeparator = false ->
  strconv.MaxInt < pVer ->
  unloadPlugin env (noFlags [pType; pName; strconv.Itoa pVer]) st
  = (Done (Some InvalidVersion), st)
  /\ swapPlugins env (noFlags [path; token pType pName pVer]) st
     = (Done (Some InvalidVersion), st).
Proof.
  intros Ht Hn Hst Hsn Hv. split.
  - unfold unloadPlugin. cbn [Args noFlags Get nth].
    rewrite (Atoi_Itoa_above _ Hv), (eqb_nonempty _ Ht), (eqb_nonempty _ Hn).
    reflexivity.
  - rewrite (swapPlugins_token env (noFlags [path; token pType pName pVer])
               path (token pType pName pVer)
               pType pName (strconv.Itoa pVer) eq_refl eq_refl).
    + now rewrite (Atoi_Itoa_above _ Hv).
    + apply SplitList_token; auto. apply Itoa_no_separator.
      unfold strconv.MaxInt in Hv. lia.
Qed.

Lemma version_above_int_range_is_invalid_witness :
  unloadPlugin echoEnv
    (noFlags ["storage"; "old-plugin"; strconv.Itoa 9223372036854775808]) initial
  = (Done (Some InvalidVersion), initial)
  /\ swapPlugins echoEnv
       (noFlags ["./new.plugin"; token "storage" "old-plugin" 9223372036854775808])
       initial
     = (Done (Some InvalidVersion), initial).
Proof.
  apply (version_above_int_range_is_invalid echoEnv "storage" "old-plugin"
           "./new.plugin" 9223372036854775808 initial);
    try reflexivity; try discriminate.
Defined.

(** X10.  Load, release-links, download-release and download refuse every
    number of arguments but one, and swap every number but one and two,
    with [Incorrect usage:] and no effect, whatever the flags say. *)
Theorem commands_refuse_wrong_argument_counts
  (env : Env) (lenv : LoadEnv) (ctx : Context) (st : State) (lst : LoadState) :
  List.length (Args ctx) <> 1%nat ->
  let usage := Some (UsageError "Incorrect usage:") in
  loadPlugin env lenv ctx lst = (Done usage, lst)
  /\ listReleaseLinks env ctx st = (Done usage, st)
  /\ downloadxPlugin env ctx st = (Done usage, st)
  /\ downloadPlugin env ctx st = (Done usage, st)
  /\ (List.length (Args ctx) <> 2%nat -> swapPlugins env ctx st = (Done usage, st)).
Proof.
  intros H. cbv zeta.
  unfold loadPlugin, listReleaseLinks, downloadxPlugin, downloadPlugin, swapPlugins.
  destruct (Args ctx) as [|a [|b [|c l]]]; cbn in *;
    repeat split; try reflexivity; congruence.
Qed.

Lemma commands_refuse_wrong_argument_counts_witness :
  loadPlugin echoEnv loadsTwo
    (specFlags [] "storage" "old-plugin" 1) loadInitial
  = (Done (Some (UsageError "Incorrect usage:")), loadInitial)
  /\ listReleaseLinks echoEnv (specFlags [] "storage" "old-plugin" 1) initial
     = (Done (Some (UsageError "Incorrect usage:")), initial)
  /\ downloadxPlugin echoEnv (specFlags [] "storage" "old-plugin" 1) initial
     = (Done (Some (UsageError "Incorrect usage:")), initial)
  /\ downloadPlugin echoEnv (specFlags [] "storage" "old-plugin" 1) initial
     = (Done (Some (UsageError "Incorrect usage:")), initial)
  /\ swapPlugins echoEnv (specFlags [] "storage" "old-plugin" 1) initial
     = (Done (Some (UsageError "Incorrect usage:")), initial).
Proof.
  destruct (commands_refuse_wrong_argument_counts echoEnv
              loadsTwo
              (specFlags [] "storage" "old-plugin" 1) initial loadInitial)
    as (H1 & H2 & H3 & H4 & H5); [discriminate|].
  split; [exact H1|]. split; [exact H2|]. split; [exact H3|]. split; [exact H4|].
  apply H5. discriminate.
Defined.

(* ================================================================== *)
(** ** The catalog *)

(** X11.  [Filter] returns the entries that satisfy the condition, in their
    order: an entry is in the result exactly when it is in the input and
    satisfies the condition, and the result is no longer than the input. *)
Theorem Filter_keeps_matching_in_order (vs : list Plugin) (f : Plugin -> bool) :
  Filter vs f = filter f vs
  /\ (forall v, In v (Filter vs f) <-> In v vs /\ f v = true)
  /\ (List.length (Filter vs f) <= List.length vs)%nat.
Proof.
  rewrite Filter_filter. split; [reflexivity|]. split.
  - intros v. apply filter_In.
  - apply filter_length_le.
Qed.

Section CatalogMore.

Lemma filter_idempotent (f : Plugin -> bool) (vs : list Plugin) :
  filter f (filter f vs) = filter f vs.
Proof.
  rewrite filter_filter. apply filter_ext. intros v. now destruct (f v).
Qed.

End CatalogMore.

(** X12.  Filtering the catalog twice with the same two filters gives what
    filtering once gives. *)
Theorem catalogFilter_idempotent (pType pName : string) (vs : list Plugin) :
  catalogFilter pType pName (catalogFilter pType pName vs)
  = catalogFilter pType pName vs.
Proof.
  destruct (String.eqb_spec pType "") as [->|Ht];
    destruct (String.eqb_spec pName "") as [->|Hn].
  - reflexivity.
  - rewrite !(catalogFilter_name _ _ Hn). apply filter_idempotent.
  - rewrite !(catalogFilter_type _ _ Ht). apply filter_idempotent.
  - rewrite !(catalogFilter_both _ _ _ Ht Hn). apply filter_idempotent.
Qed.

(** X13.  With both filters given, the catalog filter keeps the entries that
    filtering by type and then by name keeps and whose full name holds the
    name filter: it never keeps more. *)
Theorem catalog_both_filters_refine_type_then_name
  (pType pName : string) (vs : list Plugin) :
  pType <> "" -> pName <> "" ->
  catalogFilter pType pName vs
  = filter (fun v => strings.Contains (FullName v) pName)
      (catalogFilter "" pName (catalogFilter pType "" vs)).
Proof.
  intros Ht Hn.
  rewrite (catalogFilter_both _ _ _ Ht Hn), (catalogFilter_type_then_name _ _ _ Ht Hn).
  rewrite filter_filter. apply filter_ext. intros v. unfold nameMatches.
  destruct (typeMatches pType v), (strings.Contains (FullName v) pName),
    (strings.Contains (Name v) pName); reflexivity.
Qed.

Lemma catalog_both_filters_refine_type_then_name_witness :
  catalogFilter "collector" "CPU" [cpuEntry]
  = filter (fun v => strings.Contains (FullName v) "CPU")
      (catalogFilter "" "CPU" (catalogFilter "collector" "" [cpuEntry])).
Proof.
  apply catalog_both_filters_refine_type_then_name; discriminate.
Defined.

(** X14.  On a catalog where the full name of every entry holds its name, the
    filter with both filters given and filtering by type and then by name
    agree. *)
Theorem catalog_filters_agree_when_full_name_holds_name
  (pType pName : string) (vs : list Plugin) :
  pType <> "" -> pName <> "" ->
  (forall v, In v vs -> strings.Contains (FullName v) (Name v) = true) ->
  catalogFilter pType pName vs
  = catalogFilter "" pName (catalogFilter pType "" vs).
Proof.
  intros Ht Hn Hfull.
  rewrite (catalogFilter_both _ _ _ Ht Hn), (catalogFilter_type_then_name _ _ _ Ht Hn).
  induction vs as [|v vs IH]; [reflexivity|]. cbn [filter].
  rewrite IH by (intros w Hw; apply Hfull; now right).
  assert (Hv : strings.Contains (FullName v) pName = nameMatches pName v).
  { unfold nameMatches.
    destruct (strings.Contains (FullName v) pName) eqn:E1; [reflexivity|].
    destruct (strings.Contains (Name v) pName) eqn:E2; [|reflexivity].
    assert (strings.Contains (FullName v) pName = true)
      by (apply (Contains_trans _ (Name v)); [apply Hfull; now left|exact E2]).
    congruence. }
  now rewrite Hv.
Qed.

Lemma catalog_filters_agree_when_full_name_holds_name_witness :
  catalogFilter "collector" "psutil" smallCatalog
  = catalogFilter "" "psutil" (catalogFilter "collector" "" smallCatalog).
Proof.
  apply catalog_filters_agree_when_full_name_holds_name; try discriminate.
  intros v [<-|[<-|[<-|[]]]]; reflexivity.
Defined.

(** X15.  When the request for the catalog fails, or its body does not
    decode, list-catalog returns that error after the one request and
    prints nothing. *)
Theorem listCatalog_failure_prints_nothing
  (env : Env) (ctx : Context) (err : string) (st : State) :
  http_Get env catalogURL = inr err
  \/ (exists body, http_Get env catalogURL = inl body
                   /\ Unmarshal_Plugins env body = inr err) ->
  listCatalog env ctx st
  = (Done (Some (Error err)), called st (CallHttpGet catalogURL)).
Proof.
  unfold listCatalog, getPluginData, bind, call, ret, write, called, catalogURL.
  intros [H|(body & H & Hu)]; rewrite H; [reflexivity|]. now rewrite Hu.
Qed.

Lemma listCatalog_failure_prints_nothing_witness :
  listCatalog (failingEnv "connection refused") (noFlags []) initial
  = (Done (Some (Error "connection refused")),
     {| calls := [CallHttpGet catalogURL]; stdout := [] |}).
Proof.
  apply (listCatalog_failure_prints_nothing (failingEnv "connection refused")).
  left. reflexivity.
Defined.

(* ================================================================== *)
(** ** Releases and downloads *)

Section DownloadMore.

Variable env : Env.

(** [download] writes to [targetFile url name], and never reads past the
    pieces of the link. *)
Lemma download_target (url name : string) (st : State) :
  download env url name st
  = (let fileName := targetFile url name in
     Println ("Downloading " ++ url ++ " to " ++ fileName) ;;;
     call (CallCreate fileName) ;;;
     match os_Create env fileName with
     | Some err =>
         ret (Some (Error ("Error while creating " ++ fileName ++ ": " ++ err)))
     | None =>
         call (CallHttpGet url) ;;;
         match http_Get env url with
         | inr err =>
             ret (Some (Error ("Error while downloading " ++ url ++ ": " ++ err)))
         | inl body =>
             call (CallCopy fileName) ;;;
             let '(n, err) := io_Copy env fileName body in
             match err with
             | Some err =>
                 ret (Some (Error ("Error while downloading " ++ url ++ ": " ++ err)))
             | None =>
                 Println (strconv.Itoa n ++ " bytes downloaded.") ;;;
                 ret None
             end
         end
     end) st.
Proof.
  unfold download, targetFile. destruct (String.eqb name ""); [|reflexivity].
  pose proof (Split_nonempty "/" url) as Hne.
  destruct (strings.Split url "/") as [|p ps] eqn:E; [congruence|].
  assert (Hr : rev (p :: ps) <> []).
  { intros H. apply (f_equal (@rev string)) in H.
    rewrite rev_involutive in H. discriminate. }
  destruct (rev (p :: ps)) as [|t ts]; [congruence|]. reflexivity.
Qed.

Lemma targetFile_last_piece (before last : string) :
  strings.ContainsRune last "/" = false ->
  targetFile (before ++ "/" ++ last) "" = last.
Proof.
  intros H. unfold targetFile. cbn [String.eqb].
  change (before ++ "/" ++ last) with (before ++ String "/" last).
  destruct (Split_last "/" before last H) as [pieces E]. now rewrite E.
Qed.

(** [download] returns: the index into the pieces of the link is in
    range. *)
Lemma download_done (url name : string) (st : State) :
  exists r st', download env url name st = (Done r, st').
Proof.
  rewrite download_target. cbv zeta.
  unfold bind, call, ret, Println, write.
  destruct (os_Create env _); [now eexists _, _|].
  destruct (http_Get env url) as [body|err]; [|now eexists _, _].
  destruct (io_Copy env _ body) as [n [err|]]; now eexists _, _.
Qed.

End DownloadMore.



(** X17.  When [assets] is a sequence of objects, release-links prints one line
    for each, in order, holding its [browser_download_url] ([nil] when the
    object has none), and returns no error. *)
Theorem release_links_prints_every_asset
  (env : Env) (ctx : Context) (repo body : string)
  (objects : list (list (string * interface))) (st : State) :
  Args ctx = [repo] ->
  http_Get env (releaseLink repo) = inl body ->
  mapIndex (releaseDocument env body) "assets" = Slice (map Map objects) ->
  listReleaseLinks env ctx st
  = (Done None,
     {| calls := calls st ++ [CallHttpGet (releaseLink repo)];
        stdout := stdout st
                  ++ map (fun o => Value (mapIndex o "browser_download_url"))
                       objects |}).
Proof.
  intros Ha Hg Hi.
  rewrite (release_links_accepts_objects env ctx repo body (map Map objects) st
             Ha Hg Hi).
  - unfold printed, called. cbn [calls stdout]. now rewrite map_map.
  - clear. induction objects as [|o os IH]; [reflexivity|exact IH].
Qed.

Lemma release_links_prints_every_asset_witness :
  listReleaseLinks readOnlyEnv releaseCtx initial
  = (Done None,
     {| calls := [CallHttpGet (releaseLink "snap-plugin-publisher-file")];
        stdout := [Value (Str "u1"); Value Nil] |}).
Proof.
  apply (release_links_prints_every_asset readOnlyEnv releaseCtx
           "snap-plugin-publisher-file" "body"
           [[("browser_download_url", Str "u1")]; [("name", Str "checksums")]]
           initial); reflexivity.
Defined.

(** X18.  A release body that does not decode is not reported: the error of the
    decoder is dropped, and release-links and download-release panic on
    the empty document. *)
Theorem release_body_that_does_not_decode_panics
  (env : Env) (ctx : Context) (repo body : string) (st : State) :
  Args ctx = [repo] ->
  http_Get env (releaseLink repo) = inl body ->
  Unmarshal_object env body = None ->
  let st1 := called st (CallHttpGet (releaseLink repo)) in
  (exists msg, listReleaseLinks env ctx st = (Panic msg, st1))
  /\ (exists msg, downloadxPlugin env ctx st = (Panic msg, st1)).
Proof.
  intros Ha Hg Hu. unfold listReleaseLinks, downloadxPlugin. rewrite Ha.
  cbn [List.length Nat.eqb negb First Get nth].
  unfold bind at 1 3. rewrite (latestReleaseData_ok env repo body st Hg).
  unfold releaseDocument. rewrite Hu. cbn [mapIndex].
  split; eexists; reflexivity.
Qed.

Lemma release_body_that_does_not_decode_panics_witness :
  (exists msg,
     listReleaseLinks echoEnv releaseCtx initial
     = (Panic msg,
        {| calls := [CallHttpGet (releaseLink "snap-plugin-publisher-file")];
           stdout := [] |}))
  /\ (exists msg,
        downloadxPlugin echoEnv releaseCtx initial
        = (Panic msg,
           {| calls := [CallHttpGet (releaseLink "snap-plugin-publisher-file")];
              stdout := [] |})).
Proof.
  apply (release_body_that_does_not_decode_panics echoEnv releaseCtx
           "snap-plugin-publisher-file" "body" initial); reflexivity.
Defined.

(** X19.  When the release document has no [tag_name] string, download-release
    panics after the request for the release, on every architecture:
    the check of the architecture is not reached. *)
Theorem download_release_without_tag_panics
  (env : Env) (ctx : Context) (repo body : string) (st : State) :
  Args ctx = [repo] ->
  http_Get env (releaseLink repo) = inl body ->
  (forall tag_name, mapIndex (releaseDocument env body) "tag_name" <> Str tag_name) ->
  exists msg,
    downloadxPlugin env ctx st
    = (Panic msg, called st (CallHttpGet (releaseLink repo))).
Proof.
  intros Ha Hg Ht. unfold downloadxPlugin. rewrite Ha.
  cbn [List.length Nat.eqb negb First Get nth].
  unfold bind at 1. rewrite (latestReleaseData_ok env repo body st Hg).
  destruct (mapIndex (releaseDocument env body) "tag_name") eqn:E;
    try (eexists; reflexivity).
  exfalso. now apply (Ht s).
Qed.

Lemma download_release_without_tag_panics_witness :
  exists msg,
    downloadxPlugin (sampleEnv (Some brokenAssets) "arm64") releaseCtx initial
    = (Panic msg,
       {| calls := [CallHttpGet (releaseLink "snap-plugin-publisher-file")];
          stdout := [] |}).
Proof.
  apply (download_release_without_tag_panics (sampleEnv (Some brokenAssets) "arm64")
           releaseCtx "snap-plugin-publisher-file" "body" initial);
    try reflexivity.
  intros tag_name. discriminate.
Defined.

(** X20.  The major tag of any [tag_name] holds no dot and is [tag_name] itself
    or what comes before its first dot. *)
Theorem major_tag_is_the_part_before_the_first_dot (tag_name : string) :
  strings.ContainsRune (majorTag tag_name) "." = false
  /\ (tag_name = majorTag tag_name
      \/ exists rest, tag_name = majorTag tag_name ++ "." ++ rest).
Proof.
  unfold majorTag.
  pose proof (Split_pieces_clean "." tag_name) as Hc.
  pose proof (Join_Split "." tag_name) as Hj.
  destruct (strings.Split tag_name ".") as [|p [|q ps]]; cbn [hd].
  - cbn in Hj. subst. split; [reflexivity|now left].
  - inversion Hc; subst. split; [assumption|]. now left.
  - inversion Hc; subst. split; [assumption|]. right.
    now exists (Join (q :: ps) ".").
Qed.

(** X21.  [download] never panics: for every link and name it returns, and its
    first effect is to create the target file. *)
Theorem download_never_panics (env : Env) (url name : string) (st : State) :
  exists r st',
    download env url name st = (Done r, st')
    /\ exists cs out,
         calls st' = (calls st ++ CallCreate (targetFile url name) :: cs)%list
         /\ stdout st' = (stdout st ++ out)%list.
Proof.
  rewrite download_target. cbv zeta.
  unfold bind, call, ret, Println, write.
  destruct (os_Create env _); cbn [calls stdout];
    [eexists _, _; split; [reflexivity|]; eexists _, _; split; reflexivity|].
  destruct (http_Get env url) as [body|err]; cbn [calls stdout];
    [|eexists _, _; split; [reflexivity|]; rewrite <- !app_assoc;
      eexists _, _; split; reflexivity].
  destruct (io_Copy env _ body) as [n [err|]]; cbn [calls stdout];
    eexists _, _; (split; [reflexivity|]); rewrite <- !app_assoc;
    eexists _, _; split; reflexivity.
Qed.

(** X22.  With no name given, [download] writes to the file named after what
    follows the last [/] of the link. *)
Theorem download_names_file_after_last_piece
  (env : Env) (before last : string) (st : State) :
  strings.ContainsRune last "/" = false ->
  exists cs out,
    calls (snd (download env (before ++ "/" ++ last) "" st))
    = (calls st ++ CallCreate last :: cs)%list
    /\ stdout (snd (download env (before ++ "/" ++ last) "" st))
       = (stdout st
          ++ Text ("Downloading " ++ (before ++ "/" ++ last) ++ " to " ++ last
                   ++ newline) :: out)%list.
Proof.
  intros H. rewrite download_target, (targetFile_last_piece before last H). cbv zeta.
  unfold bind, call, ret, Println, write. cbn [fst snd calls stdout].
  destruct (os_Create env last) as [err|].
  { exists [], []. cbn. split; [reflexivity|]. now rewrite !append_assoc. }
  destruct (http_Get env _) as [body|err]; cbn [fst snd calls stdout].
  - destruct (io_Copy env last body) as [n [err|]]; cbn [fst snd calls stdout];
      eexists _, _; rewrite <- !app_assoc, !append_assoc; split; reflexivity.
  - eexists _, _. rewrite <- !app_assoc, !append_assoc. split; reflexivity.
Qed.

Lemma download_names_file_after_last_piece_witness :
  exists cs out,
    calls (snd (download echoEnv ("https://example.org/plugins" ++ "/" ++ "cpu") ""
                  initial))
    = CallCreate "cpu" :: cs
    /\ stdout (snd (download echoEnv ("https://example.org/plugins" ++ "/" ++ "cpu") ""
                      initial))
       = Text ("Downloading " ++ ("https://example.org/plugins" ++ "/" ++ "cpu")
               ++ " to " ++ "cpu" ++ newline) :: out.
Proof.
  apply (download_names_file_after_last_piece echoEnv "https://example.org/plugins"
           "cpu" initial).
  reflexivity.
Defined.

(** X23.  When the target file cannot be created, [download] returns [Error
    while creating] with the file and the cause, and makes no request. *)
Theorem download_makes_no_request_when_create_fails
  (env : Env) (url name err : string) (st : State) :
  os_Create env (targetFile url name) = Some err ->
  let fileName := targetFile url name in
  download env url name st
  = (Done (Some (Error ("Error while creating " ++ fileName ++ ": " ++ err))),
     printed (called st (CallCreate fileName))
       [Text (("Downloading " ++ url ++ " to " ++ fileName) ++ newline)]).
Proof.
  intros H. rewrite download_target. cbv zeta.
  unfold bind, call, ret, Println, write, printed, called. now rewrite H.
Qed.

Lemma download_makes_no_request_when_create_fails_witness :
  download readOnlyEnv "https://example.org/plugins/cpu" "" initial
  = (Done (Some (Error "Error while creating cpu: permission denied")),
     {| calls := [CallCreate "cpu"];
        stdout := [Text (("Downloading https://example.org/plugins/cpu to cpu")
                         ++ newline)] |}).
Proof.
  apply (download_makes_no_request_when_create_fails readOnlyEnv
           "https://example.org/plugins/cpu" "" "permission denied" initial).
  reflexivity.
Defined.

(** X24.  [download] creates the file before it requests the link: when the
    request fails the file is there, and the error names the link. *)
Theorem download_creates_file_before_request
  (env : Env) (url name err : string) (st : State) :
  os_Create env (targetFile url name) = None ->
  http_Get env url = inr err ->
  let fileName := targetFile url name in
  download env url name st
  = (Done (Some (Error ("Error while downloading " ++ url ++ ": " ++ err))),
     {| calls := calls st ++ [CallCreate fileName; CallHttpGet url];
        stdout := stdout st
                  ++ [Text (("Downloading " ++ url ++ " to " ++ fileName)
                            ++ newline)] |}).
Proof.
  intros Hc Hg. rewrite download_target. cbv zeta.
  unfold bind, call, ret, Println, write. rewrite Hc, Hg. cbn [calls stdout].
  now rewrite <- app_assoc.
Qed.

Lemma download_creates_file_before_request_witness :
  download offlineEnv "https://example.org/plugins/cpu" "" initial
  = (Done (Some (Error ("Error while downloading https://example.org/plugins/cpu"
                        ++ ": " ++ "no route to host"))),
     {| calls := [CallCreate "cpu"; CallHttpGet "https://example.org/plugins/cpu"];
        stdout := [Text (("Downloading https://example.org/plugins/cpu to cpu")
                         ++ newline)] |}).
Proof.
  apply (download_creates_file_before_request offlineEnv
           "https://example.org/plugins/cpu" "" "no route to host" initial);
    reflexivity.
Defined.

(** X25.  When the file is created, the link answers and the copy succeeds,
    [download] prints the line [Downloading ...] and the number of bytes
    copied, and returns no error. *)
Theorem download_reports_bytes_copied
  (env : Env) (url name body : string) (n : Z) (st : State) :
  os_Create env (targetFile url name) = None ->
  http_Get env url = inl body ->
  io_Copy env (targetFile url name) body = (n, None) ->
  let fileName := targetFile url name in
  download env url name st
  = (Done None,
     {| calls := calls st ++ [CallCreate fileName; CallHttpGet url; CallCopy fileName];
        stdout := stdout st
                  ++ [Text (("Downloading " ++ url ++ " to " ++ fileName) ++ newline);
                      Text ((strconv.Itoa n ++ " bytes downloaded.") ++ newline)] |}).
Proof.
  intros Hc Hg Hn. rewrite download_target. cbv zeta.
  unfold bind, call, ret, Println, write. rewrite Hc, Hg, Hn. cbn [calls stdout].
  now rewrite <- !app_assoc.
Qed.

Lemma download_reports_bytes_copied_witness :
  download echoEnv "https://example.org/plugins/cpu" "plugin.bin" initial
  = (Done None,
     {| calls := [CallCreate "plugin.bin";
                  CallHttpGet "https://example.org/plugins/cpu";
                  CallCopy "plugin.bin"];
        stdout := [Text (("Downloading https://example.org/plugins/cpu to plugin.bin")
                         ++ newline);
                   Text (("4 bytes downloaded.") ++ newline)] |}).
Proof.
  apply (download_reports_bytes_copied echoEnv "https://example.org/plugins/cpu"
           "plugin.bin" "body" 4 initial); reflexivity.
Defined.

(** X26.  The commands download and download-release drop the result of
    [download]: once the download is started they return no error, also
    when it failed. *)
Theorem download_commands_hide_download_errors
  (env : Env) (ctx : Context) (arg : string) (st : State) :
  Args ctx = [arg] ->
  fst (downloadPlugin env ctx st) = Done None
  /\ (forall body tag_name arch,
        http_Get env (releaseLink arg) = inl body ->
        mapIndex (releaseDocument env body) "tag_name" = Str tag_name ->
        archName (GOARCH env) = Some arch ->
        fst (downloadxPlugin env ctx st) = Done None).
Proof.
  intros Ha. split.
  - unfold downloadPlugin. rewrite Ha. cbn [List.length Nat.eqb negb Get nth].
    unfold bind.
    destruct (download_done env arg "" st) as (r & st' & E). now rewrite E.
  - intros body tag_name arch Hg Ht Harch.
    rewrite (downloadxPlugin_reached env ctx arg body tag_name st Ha Hg Ht), Harch.
    unfold bind.
    destruct (download_done env
                (downloadLink arg (majorTag tag_name) (GOOS env) arch) arg
                (called st (CallHttpGet (releaseLink arg)))) as (r & st' & E).
    now rewrite E.
Qed.

Lemma download_commands_hide_download_errors_witness :
  fst (downloadPlugin readOnlyEnv (noFlags ["https://example.org/plugins/cpu"]) initial)
  = Done None
  /\ fst (downloadxPlugin readOnlyEnv (noFlags ["https://example.org/plugins/cpu"])
            initial)
     = Done None.
Proof.
  destruct (download_commands_hide_download_errors readOnlyEnv
              (noFlags ["https://example.org/plugins/cpu"])
              "https://example.org/plugins/cpu" initial eq_refl) as [H1 H2].
  split; [exact H1|].
  apply (H2 "body" "2.4.1-beta" "x86_64"); reflexivity.
Defined.

(* ================================================================== *)
(** ** Load *)

Section LoadFacts.

Variable env : Env.

Lemma append_empty_r (a : string) : a ++ "" = a.
Proof. induction a as [|x a IH]; simpl; [reflexivity|now rewrite IH]. Qed.

(** The loop prints the report and nothing else. *)
Lemma printLoadedPlugins_report (plugins : list client.LoadedPlugin) (st : State) :
  exists out,
    printLoadedPlugins env plugins st = (Done tt, printed st out)
    /\ text out = Some (loadReport env plugins).
Proof.
  revert st. induction plugins as [|p rest IH]; intros st.
  - exists []. cbn. now rewrite printed_nil.
  - cbn [printLoadedPlugins]. unfold bind, Println, Printf, write.
    match goal with
    | |- context [printLoadedPlugins env rest ?s] => destruct (IH s) as (out & E & Ht)
    end.
    rewrite E.
    eexists ([_; _; _; _; _; _] ++ out)%list. split.
    + unfold printed. cbn [calls stdout]. repeat rewrite <- app_assoc. reflexivity.
    + cbn [app text option_map]. rewrite Ht. cbn [option_map]. f_equal.
      cbn [loadReport]. unfold loadedBlock, blankLine, newline. cbn.
      repeat (rewrite append_assoc; cbn). reflexivity.
Qed.

End LoadFacts.

(** X27.  When the remote client loads the file, load makes one request and
    prints, for every plugin of the result in order, its block followed by
    an empty line. *)
Theorem load_prints_a_block_per_plugin
  (env : Env) (lenv : LoadEnv) (ctx : Context) (path : string) (st : LoadState) :
  Args ctx = [path] ->
  ascOK ctx = true ->
  LoadErr (LoadPlugin lenv (swapPaths ctx)) = None ->
  exists out,
    loadPlugin env lenv ctx st
    = (Done None,
       {| requests := requests st ++ [swapPaths ctx];
          console := printed (console st) out |})
    /\ text out
       = Some (loadReport env (LoadedPlugins (LoadPlugin lenv (swapPaths ctx)))).
Proof.
  intros Ha Hok He. unfold loadPlugin. rewrite Ha.
  cbn [List.length Nat.eqb negb]. rewrite (asc_guard _ Hok). cbv zeta.
  assert (Hp : swapPaths ctx
               = if negb (String.eqb (String' ctx "plugin-asc") "")
                 then ([First [path]] ++ [String' ctx "plugin-asc"])%list
                 else [First [path]])
    by (unfold swapPaths; now rewrite Ha).
  rewrite <- Hp, He. cbn [requests console].
  destruct (printLoadedPlugins_report env
              (LoadedPlugins (LoadPlugin lenv (swapPaths ctx))) (console st))
    as (out & E & Ht).
  rewrite E. exists out. split; [reflexivity|exact Ht].
Qed.

Lemma load_prints_a_block_per_plugin_witness :
  exists out,
    loadPlugin echoEnv loadsTwo
      (noFlags ["./bundle.aci"]) loadInitial
    = (Done None,
       {| requests := [["./bundle.aci"]]; console := printed initial out |})
    /\ text out = Some (loadReport echoEnv twoPlugins).
Proof.
  apply (load_prints_a_block_per_plugin echoEnv
           loadsTwo
           (noFlags ["./bundle.aci"]) "./bundle.aci" loadInitial); reflexivity.
Defined.

(** X28.  An error of the remote client is returned by load as [Error loading
    plugin:], the text of the error, and the field [error] of the error
    when it has one, each on a line, after one request; nothing is
    printed. *)
Theorem load_remote_error_prints_nothing
  (env : Env) (lenv : LoadEnv) (ctx : Context) (path : string) (err : ClientError)
  (st : LoadState) :
  Args ctx = [path] ->
  ascOK ctx = true ->
  LoadErr (LoadPlugin lenv (swapPaths ctx)) = Some err ->
  loadPlugin env lenv ctx st
  = (Done (Some (Error (loadErrorText lenv err))), requested st (swapPaths ctx)).
Proof.
  intros Ha Hok He. unfold loadPlugin. rewrite Ha.
  cbn [List.length Nat.eqb negb]. rewrite (asc_guard _ Hok). cbv zeta.
  assert (Hp : swapPaths ctx
               = if negb (String.eqb (String' ctx "plugin-asc") "")
                 then ([First [path]] ++ [String' ctx "plugin-asc"])%list
                 else [First [path]])
    by (unfold swapPaths; now rewrite Ha).
  rewrite <- Hp, He. unfold loadErrorText, requested.
  destruct (mapIndex (Fields err) "error");
    rewrite ?append_assoc, ?append_empty_r; reflexivity.
Qed.

Lemma load_remote_error_prints_nothing_witness :
  loadPlugin echoEnv
    refusesLoad
    (noFlags ["./bundle.aci"]) loadInitial
  = (Done (Some (Error ("Error loading plugin:" ++ newline
                        ++ "plugin load failed" ++ newline
                        ++ "bad signature" ++ newline))),
     {| requests := [["./bundle.aci"]]; console := initial |}).
Proof.
  apply (load_remote_error_prints_nothing echoEnv
           refusesLoad (noFlags ["./bundle.aci"]) "./bundle.aci" badSignature
           loadInitial); reflexivity.
Defined.

(** X29.  Load and swap refuse a signature flag that does not hold [.asc], with
    a usage error and no request, before they look at anything else but
    the number of arguments. *)
Theorem signature_flag_must_hold_asc
  (env : Env) (lenv : LoadEnv) (ctx : Context) (st : State) (lst : LoadState) :
  String' ctx "plugin-asc" <> "" ->
  strings.Contains (String' ctx "plugin-asc") ".asc" = false ->
  let usage := Some (UsageError "Must be a .asc file for the -a flag") in
  (List.length (Args ctx) = 1%nat -> loadPlugin env lenv ctx lst = (Done usage, lst))
  /\ (List.length (Args ctx) = 1%nat \/ List.length (Args ctx) = 2%nat ->
      swapPlugins env ctx st = (Done usage, st)).
Proof.
  intros Ha Hc. cbv zeta. unfold loadPlugin, swapPlugins.
  rewrite (eqb_nonempty _ Ha), Hc.
  destruct (Args ctx) as [|a [|b [|c l]]]; cbn; split;
    try reflexivity; try discriminate; intros [H|H]; discriminate H.
Qed.

Lemma signature_flag_must_hold_asc_witness :
  swapPlugins echoEnv
    (signedFlags ["./new.plugin"; "storage:old-plugin:1"] "new.sig" "" "" 0) initial
  = (Done (Some (UsageError "Must be a .asc file for the -a flag")), initial).
Proof.
  destruct (signature_flag_must_hold_asc echoEnv
              loadsTwo
              (signedFlags ["./new.plugin"; "storage:old-plugin:1"] "new.sig" "" "" 0)
              initial loadInitial) as [_ H]; [discriminate|reflexivity|].
  apply H. right. reflexivity.
Defined.
